(** * The Slack endpoint of the Dify plugin: a shallow embedding

    Source: [endpoints/slack.py], class [SlackEndpoint].

    The handler navigates loosely typed JSON, so the data model is a small
    universe of Python values.  The three collaborators (the Slack
    [WebClient], the Dify chat session and the werkzeug request) are
    external: calls to them are nodes of a program tree, answered by an
    arbitrary platform when the tree is run.

    Conventions.
    - A Python [str] is a [string]: the bytes of its UTF-8 encoding (of its
      latin-1 encoding for header values).  The handler only concatenates,
      compares and searches for ASCII literals, which commutes with the
      encoding.
    - JSON numbers are integers; floating point values are outside the
      model.
    - [print] and [traceback.format_exc] only write to the log and are not
      modelled. *)

From Stdlib Require Import String Ascii List ZArith Bool Lia.
From Stdlib Require Import DecimalString.
Import ListNotations.
Local Open Scope string_scope.
Local Open Scope Z_scope.
Local Set Warnings "-register-all".

(** ** Python values *)

Inductive pyval : Type :=
| PNone
| PBool (b : bool)
| PInt (n : Z)
| PStr (s : string)
| PList (l : list pyval)
| PDict (d : list (string * pyval)).

(** A [dict] with string keys, in insertion order; a key is bound once. *)
Definition pydict : Type := list (string * pyval).

Fixpoint lookup (key : string) (d : pydict) : option pyval :=
  match d with
  | [] => None
  | (k, v) :: d' => if String.eqb k key then Some v else lookup key d'
  end.

(** [d.get(key, default)] on a dict. *)
Definition dict_get (d : pydict) (key : string) (default : pyval) : pyval :=
  match lookup key d with
  | Some v => v
  | None => default
  end.

(** [bool(v)]. *)
Definition truthy (v : pyval) : bool :=
  match v with
  | PNone => false
  | PBool b => b
  | PInt n => negb (n =? 0)
  | PStr s => negb (String.eqb s "")
  | PList l => match l with [] => false | _ => true end
  | PDict d => match d with [] => false | _ => true end
  end.

Definition Z_of_bool (b : bool) : Z := if b then 1 else 0.

(** [a == b].  [bool] is a subclass of [int]; lists compare element-wise,
    dicts as mappings. *)
Fixpoint py_eq (a b : pyval) : bool :=
  match a, b with
  | PNone, PNone => true
  | PBool x, PBool y => Bool.eqb x y
  | PBool x, PInt y => Z_of_bool x =? y
  | PInt x, PBool y => x =? Z_of_bool y
  | PInt x, PInt y => x =? y
  | PStr x, PStr y => String.eqb x y
  | PList l, PList l' =>
      (fix all2 (l : list pyval) (l' : list pyval) : bool :=
         match l, l' with
         | [], [] => true
         | x :: r, y :: r' => py_eq x y && all2 r r'
         | _, _ => false
         end) l l'
  | PDict d, PDict d' =>
      (Nat.eqb (List.length d) (List.length d')) &&
      (fix sub (d : pydict) : bool :=
         match d with
         | [] => true
         | (k, v) :: r =>
             match lookup k d' with
             | Some v' => py_eq v v'
             | None => false
             end && sub r
         end) d
  | _, _ => false
  end.

(** [type(v).__name__]. *)
Definition type_name (v : pyval) : string :=
  match v with
  | PNone => "NoneType"
  | PBool _ => "bool"
  | PInt _ => "int"
  | PStr _ => "str"
  | PList _ => "list"
  | PDict _ => "dict"
  end.

Definition str_of_Z (n : Z) : string := NilZero.string_of_int (Z.to_int n).

(** ** Exceptions

    Every exception here is an instance of [Exception]; [exn_str] is
    [str(e)]. *)

Inductive exn_class : Type :=
| SlackApiError
| AttributeError
| TypeError
| KeyError
| IndexError
| ValueError
| HTTPException
| OtherException.

Record exn : Type := mk_exn { exn_class_of : exn_class; exn_str : string }.

Definition is_SlackApiError (e : exn) : bool :=
  match exn_class_of e with
  | SlackApiError => true
  | _ => false
  end.

Inductive result (A : Type) : Type :=
| Returned (a : A)
| Raised (e : exn).
Arguments Returned {A} a.
Arguments Raised {A} e.

(** ** Strings *)

(** [s.startswith(p)]. *)
Definition startswith (s p : string) : bool := String.prefix p s.

Fixpoint drop (n : nat) (s : string) : string :=
  match n, s with
  | O, _ => s
  | S n', String _ s' => drop n' s'
  | S _, EmptyString => EmptyString
  end.

(** [sub in s]. *)
Fixpoint str_in (sub s : string) : bool :=
  String.prefix sub s ||
  match s with
  | EmptyString => false
  | String _ s' => str_in sub s'
  end.

(** [s.split(sep, 1)] for a non-empty separator: at most one cut, at the
    leftmost occurrence. *)
Fixpoint split1 (sep s : string) : list string :=
  if String.prefix sep s then [EmptyString; drop (String.length sep) s]
  else match s with
       | EmptyString => [EmptyString]
       | String c s' =>
           match split1 sep s' with
           | h :: t => String c h :: t
           | [] => [String c EmptyString]
           end
       end.

(** ** [int(s)] on a header value

    A header value is a latin-1 string, one byte for a character.  [int]
    (CPython 3.11) skips the leading whitespace and an optional sign, reads
    the run of digits, which single underscores may group, refuses a run of
    more than 4300 digits (the default [int_max_str_digits]), and then
    accepts nothing but whitespace. *)

(** Whitespace for [int]: tab to carriage return, space, and the latin-1
    characters NEL and no-break space. *)
Definition is_space (c : ascii) : bool :=
  let n := nat_of_ascii c in
  (((9 <=? n) && (n <=? 13)) || (n =? 32) || (n =? 133) || (n =? 160))%nat.

Definition is_digit (c : ascii) : bool :=
  let n := nat_of_ascii c in ((48 <=? n) && (n <=? 57))%nat.

Definition digit_value (c : ascii) : Z := Z.of_nat (nat_of_ascii c) - 48.

Fixpoint lstrip (l : list ascii) : list ascii :=
  match l with
  | c :: r => if is_space c then lstrip r else l
  | [] => []
  end.

(** The run of digits and underscores that opens [l]: its value, its
    number of digits and what follows it; [None] when two underscores meet
    or an underscore ends the run. *)
Fixpoint scan_digits (acc : Z) (count : nat) (after_underscore : bool)
         (l : list ascii) : option (Z * nat * list ascii) :=
  match l with
  | [] => if after_underscore then None else Some (acc, count, [])
  | c :: r =>
      if is_digit c
      then scan_digits (10 * acc + digit_value c) (S count) false r
      else if Ascii.eqb c "_"
           then (if after_underscore then None
                 else scan_digits acc count true r)
           else (if after_underscore then None else Some (acc, count, l))
  end.

Definition int_max_str_digits : nat := 4300.

(** The sign, and the text after the leading whitespace and the sign. *)
Definition signed_digits (s : string) : bool * list ascii :=
  let body := lstrip (list_ascii_of_string s) in
  match body with
  | c :: r => if Ascii.eqb c "-" then (true, r)
              else if Ascii.eqb c "+" then (false, r)
              else (false, body)
  | [] => (false, body)
  end.

Definition starts_with_underscore (l : list ascii) : bool :=
  match l with
  | c :: _ => Ascii.eqb c "_"
  | [] => false
  end.

Inductive int_literal : Type :=
| Parsed (n : Z)
| InvalidLiteral
| TooManyDigits (digits : nat).

Definition parse_int (s : string) : int_literal :=
  let '(negative, body) := signed_digits s in
  if starts_with_underscore body then InvalidLiteral
  else match scan_digits 0 0 false body with
       | None => InvalidLiteral
       | Some (n, count, rest) =>
           if (int_max_str_digits <? count)%nat then TooManyDigits count
           else if (count =? 0)%nat then InvalidLiteral
                else match lstrip rest with
                     | [] => Parsed (if negative then - n else n)
                     | _ :: _ => InvalidLiteral
                     end
       end.

(** ** Programs that call the collaborators

    [conversations_replies] and [chat_postMessage] are the two methods of
    the [WebClient] built from the bot token; their first argument names the
    client by the token it was built from.  [chat_invoke] is
    [self.session.app.chat.invoke]. *)

Inductive call : Type :=
| conversations_replies (token channel ts : pyval)
| chat_invoke (app_id query : pyval) (inputs : pydict)
              (conversation_id response_mode user : string)
| chat_postMessage (token channel text thread_ts : pyval).

(** A program returns, raises, or calls a collaborator and continues with
    what the collaborator returned or raised. *)
Inductive prog (A : Type) : Type :=
| Ret (a : A)
| Raise (e : exn)
| Do (c : call) (k : result pyval -> prog A).
Arguments Ret {A} a.
Arguments Raise {A} e.
Arguments Do {A} c k.

Fixpoint bind {A B : Type} (p : prog A) (f : A -> prog B) : prog B :=
  match p with
  | Ret a => f a
  | Raise e => Raise e
  | Do c k => Do c (fun o => bind (k o) f)
  end.

Declare Scope prog_scope.
Delimit Scope prog_scope with prog.
Notation "x <- p ;; q" := (bind p (fun x => q))
  (at level 100, p at next level, right associativity) : prog_scope.
Notation "p ;; q" := (bind p (fun _ => q))
  (at level 100, right associativity) : prog_scope.
Local Open Scope prog_scope.

Definition of_result {A : Type} (r : result A) : prog A :=
  match r with
  | Returned a => Ret a
  | Raised e => Raise e
  end.

(** A call outside any [try]: its exception propagates. *)
Definition perform (c : call) : prog pyval := Do c of_result.

(** [try: p  except <class> as e: handler e]; the handler answers [None]
    for an exception its clause does not match. *)
Fixpoint try_except {A : Type} (p : prog A) (handler : exn -> option (prog A))
  : prog A :=
  match p with
  | Ret a => Ret a
  | Raise e => match handler e with
               | Some h => h
               | None => Raise e
               end
  | Do c k => Do c (fun o => try_except (k o) handler)
  end.

Definition except_SlackApiError {A : Type} (h : exn -> prog A)
  : exn -> option (prog A) :=
  fun e => if is_SlackApiError e then Some (h e) else None.

Definition except_Exception {A : Type} (h : exn -> prog A)
  : exn -> option (prog A) :=
  fun e => Some (h e).

(** ** Running a program against a platform *)

Definition trace : Type := list (call * result pyval).

Section Run.
Variable World : Type.
Variable respond : World -> call -> result pyval * World.

Fixpoint run {A : Type} (w : World) (p : prog A)
  : result A * trace * World :=
  match p with
  | Ret a => (Returned a, [], w)
  | Raise e => (Raised e, [], w)
  | Do c k =>
      let '(o, w1) := respond w c in
      let '(r, t, w2) := run w1 (k o) in
      (r, (c, o) :: t, w2)
  end.
End Run.
Arguments run {World} respond {A} w p.

Definition outcome_of {A W : Type} (x : result A * trace * W) : result A :=
  fst (fst x).
Definition trace_of {A W : Type} (x : result A * trace * W) : trace :=
  snd (fst x).

Definition is_chat_invoke (c : call) : bool :=
  match c with
  | chat_invoke _ _ _ _ _ _ => true
  | _ => false
  end.

(** The backend invocations of a run, in order. *)
Definition backend_calls (t : trace) : list call :=
  filter is_chat_invoke (map fst t).

(** ** Dynamic operations *)

Definition no_attribute (v : pyval) (attr : string) : exn :=
  mk_exn AttributeError
    ("'" ++ type_name v ++ "' object has no attribute '" ++ attr ++ "'").

(** [v.get(key, default)]. *)
Definition py_get (v : pyval) (key : string) (default : pyval) : prog pyval :=
  match v with
  | PDict d => Ret (dict_get d key default)
  | _ => Raise (no_attribute v "get")
  end.

(** [v.startswith(p)]. *)
Definition py_startswith (v : pyval) (p : string) : prog bool :=
  match v with
  | PStr s => Ret (startswith s p)
  | _ => Raise (no_attribute v "startswith")
  end.

(** [v[key]] for a string key. *)
Definition py_getitem (v : pyval) (key : string) : prog pyval :=
  match v with
  | PDict d => match lookup key d with
               | Some x => Ret x
               | None => Raise (mk_exn KeyError ("'" ++ key ++ "'"))
               end
  | PStr _ =>
      Raise (mk_exn TypeError "string indices must be integers, not 'str'")
  | PList _ =>
      Raise (mk_exn TypeError
               "list indices must be integers or slices, not str")
  | _ => Raise (mk_exn TypeError
                  ("'" ++ type_name v ++ "' object is not subscriptable"))
  end.

(** [l[i]] on a list of strings. *)
Definition py_index (l : list string) (i : nat) : prog string :=
  match nth_error l i with
  | Some s => Ret s
  | None => Raise (mk_exn IndexError "list index out of range")
  end.

(** The elements [for x in v] visits: a dict yields its keys, a str its
    characters (one per byte here; they are strings either way). *)
Definition py_iter (v : pyval) : prog (list pyval) :=
  match v with
  | PList l => Ret l
  | PDict d => Ret (map (fun kv => PStr (fst kv)) d)
  | PStr s =>
      Ret (map (fun c => PStr (String c EmptyString)) (list_ascii_of_string s))
  | _ => Raise (mk_exn TypeError
                  ("'" ++ type_name v ++ "' object is not iterable"))
  end.

(** [SlackResponse.get(key, default)] of slack_sdk, on the data of the
    response: [None] when there is no data, the member of an object
    otherwise. *)
Definition SlackResponse_get (data : pyval) (key : string) (default : pyval)
  : prog pyval :=
  match data with
  | PNone => Ret PNone
  | _ => py_get data key default
  end.

(** [WebClient(token=token)] of slack_sdk.  The constructor keeps
    [token.strip()] unless the token is [None], so a token that is neither
    [None] nor a [str] has no [strip] and the construction raises.  The
    client is named by the token it was built from. *)
Definition WebClient (token : pyval) : prog pyval :=
  match token with
  | PNone | PStr _ => Ret token
  | _ => Raise (no_attribute token "strip")
  end.

(** ** Requests and responses *)

(** What the handler reads of a werkzeug [Request]: the two headers and the
    outcome of [get_json()]. *)
Record Request : Type := {
  X_Slack_Retry_Num : option string;
  X_Slack_Retry_Reason : option string;
  get_json : result pyval
}.

(** A body is a text, or [json.dumps] of a value (the serialisation itself
    is left to the library). *)
Inductive body : Type :=
| text (s : string)
| json_dumps (v : pyval).

Record Response : Type := {
  status : Z;
  response : body;
  content_type : option string
}.

Definition ok_response : Response :=
  {| status := 200; response := text "ok"; content_type := None |}.

Definition apology : string :=
  "Sorry, I'm having trouble processing your request. Please try again later.".

(** ** The endpoint *)

Section Endpoint.

(** [repr] of a value, used where a list or a dict is formatted; its
    rendering of string literals needs the Unicode tables and is left to
    the interpreter. *)
Variable py_repr : pyval -> string.

(** [format(v, "")], the way an f-string renders a field. *)
Definition py_format (v : pyval) : string :=
  match v with
  | PNone => "None"
  | PBool b => if b then "True" else "False"
  | PInt n => str_of_Z n
  | PStr s => s
  | PList _ | PDict _ => py_repr v
  end.

(** [int(s)]; the message of an invalid literal shows the first 200
    characters of [repr(s)].  The repr of a header value is latin-1 like
    the value, one byte for a character. *)
Definition py_int (s : string) : prog Z :=
  match parse_int s with
  | Parsed n => Ret n
  | InvalidLiteral =>
      Raise (mk_exn ValueError
               ("invalid literal for int() with base 10: "
                ++ substring 0 200 (py_repr (PStr s))))
  | TooManyDigits digits =>
      Raise (mk_exn ValueError
               ("Exceeds the limit (4300 digits) for integer string conversion: value has "
                ++ str_of_Z (Z.of_nat digits)
                ++ " digits; use sys.set_int_max_str_digits() to increase the limit"))
  end.

(** The body of the [for msg in ...] loop of [_get_thread_history],
    with the list [history] built so far. *)
Fixpoint history_loop (msgs : list pyval) (thread_ts : pyval)
         (history : list pyval) : prog (list pyval) :=
  match msgs with
  | [] => Ret history
  | msg :: rest =>
      ts <- py_get msg "ts" PNone ;;
      if py_eq ts thread_ts then history_loop rest thread_ts history
      else
        bot_id <- py_get msg "bot_id" PNone ;;
        let role := if truthy bot_id then "assistant" else "user" in
        content <- py_get msg "text" (PStr "") ;;
        history_loop rest thread_ts
          (history ++ [PDict [("role", PStr role); ("content", content)]])
  end.

(** [client] is the [WebClient] built from [token]; the value the platform
    returns is the data of the [SlackResponse], read with
    [SlackResponse.get]. *)
Definition _get_thread_history (token channel thread_ts : pyval)
  : prog (list pyval) :=
  try_except
    (result <- perform (conversations_replies token channel thread_ts) ;;
     messages <- SlackResponse_get result "messages" (PList []) ;;
     msgs <- py_iter messages ;;
     history_loop msgs thread_ts [])
    (except_SlackApiError (fun e => Ret [])).

(** The f-string [f"slack-{channel}-{thread_ts}"]. *)
Definition conversation_id_of (channel thread_ts : pyval) : string :=
  "slack-" ++ py_format channel ++ "-" ++ py_format thread_ts.

(** The calls of the client take it as their first argument. *)
Definition _process_and_respond (message channel thread_ts : pyval)
           (settings : pydict) : prog Response :=
  let token := dict_get settings "bot_token" PNone in
  client <- WebClient token ;;
  try_except
    (thread_history <-
       (if truthy thread_ts
        then _get_thread_history client channel thread_ts
        else Ret []) ;;
     let conversation_id := conversation_id_of channel thread_ts in
     app <- py_getitem (PDict settings) "app" ;;
     app_id <- py_getitem app "app_id" ;;
     response <- perform (chat_invoke app_id message [] conversation_id
                            "blocking" "slack-user") ;;
     try_except
       (answer <- py_get response "answer" PNone ;;
        result <- perform (chat_postMessage client channel answer thread_ts) ;;
        Ret ok_response)
       (except_SlackApiError (fun e =>
          Ret {| status := 200;
                 response := text ("Error sending message to Slack: "
                                   ++ exn_str e);
                 content_type := Some "text/plain" |})))
    (except_Exception (fun e =>
       try_except
         (perform (chat_postMessage client channel (PStr apology) thread_ts) ;;
          Ret tt)
         (except_SlackApiError (fun _ => Ret tt)) ;;
       Ret {| status := 200;
              response := text ("An error occurred: " ++ exn_str e);
              content_type := Some "text/plain" |})).

(** Lines 56-57: drop the mention that opens the message.  Only a [str]
    has [startswith]; the membership test and the split then run on that
    same string. *)
Definition strip_mention (message : pyval) : prog pyval :=
  match message with
  | PStr m =>
      if startswith m "<@"
      then if str_in "> " m
           then (part <- py_index (split1 "> " m) 1 ;; Ret (PStr part))
           else Ret message
      else Ret message
  | _ => Raise (no_attribute message "startswith")
  end.

Definition _handle_mention (event : pyval) (settings : pydict)
  : prog Response :=
  message <- py_get event "text" (PStr "") ;;
  message <- strip_mention message ;;
  channel <- py_get event "channel" (PStr "") ;;
  ts <- py_get event "ts" PNone ;;
  thread_ts <- py_get event "thread_ts" ts ;;
  _process_and_respond message channel thread_ts settings.

Definition _handle_message (event : pyval) (settings : pydict)
  : prog Response :=
  bot_id <- py_get event "bot_id" PNone ;;
  from_bot <-
    (if truthy bot_id then Ret true
     else (subtype <- py_get event "subtype" PNone ;;
           Ret (py_eq subtype (PStr "bot_message")))) ;;
  if from_bot then Ret ok_response
  else
    channel <- py_get event "channel" (PStr "") ;;
    is_dm <- py_startswith channel "D" ;;
    thread_ts <- py_get event "thread_ts" PNone ;;
    if negb is_dm && negb (truthy thread_ts)
    then Ret ok_response
    else
      message <- py_get event "text" (PStr "") ;;
      thread_ts <- (if truthy thread_ts then Ret thread_ts
                    else py_get event "ts" PNone) ;;
      _process_and_respond message channel thread_ts settings.

Definition header_is (h : option string) (value : string) : bool :=
  match h with
  | Some s => String.eqb s value
  | None => false
  end.

(** Lines 16-18: is this a redelivery to be ignored? *)
Definition retry_ignored (r : Request) (settings : pydict) : prog bool :=
  let retry_num := X_Slack_Retry_Num r in
  if negb (truthy (dict_get settings "allow_retry" PNone))
  then if header_is (X_Slack_Retry_Reason r) "http_timeout"
       then Ret true
       else match retry_num with
            | Some s => (n <- py_int s ;; Ret (0 <? n))
            | None => Ret false
            end
  else Ret false.

Definition _invoke (r : Request) (settings : pydict) : prog Response :=
  ignored <- retry_ignored r settings ;;
  if ignored then Ret ok_response
  else
    data <- of_result (get_json r) ;;
    type <- py_get data "type" PNone ;;
    if py_eq type (PStr "url_verification")
    then
      challenge <- py_get data "challenge" PNone ;;
      Ret {| status := 200;
             response := json_dumps (PDict [("challenge", challenge)]);
             content_type := Some "application/json" |}
    else
      type <- py_get data "type" PNone ;;
      if py_eq type (PStr "event_callback")
      then
        event <- py_get data "event" PNone ;;
        event_type <- py_get event "type" PNone ;;
        if py_eq event_type (PStr "app_mention")
        then _handle_mention event settings
        else
          event_type <- py_get event "type" PNone ;;
          if py_eq event_type (PStr "message")
          then _handle_message event settings
          else Ret ok_response
      else Ret ok_response.

End Endpoint.

(** ** Reading a run *)

Definition is_conversations_replies (c : call) : bool :=
  match c with
  | conversations_replies _ _ _ => true
  | _ => false
  end.

Definition conversation_id_arg (c : call) : option string :=
  match c with
  | chat_invoke _ _ _ conversation_id _ _ => Some conversation_id
  | _ => None
  end.


(** ** The data model of the specification, as predicates *)

(** [settings["app"]["app_id"]], when both subscripts succeed. *)
Definition configured_app_id (settings : pydict) : option pyval :=
  match lookup "app" settings with
  | Some (PDict app) => lookup "app_id" app
  | _ => None
  end.

Definition is_dict (v : pyval) : bool :=
  match v with
  | PDict _ => true
  | _ => false
  end.

(** The contract of fetch-thread-replies: a response whose [messages], when
    there, is a list of objects, or a platform-API error. *)
Definition replies_conform (o : result pyval) : bool :=
  match o with
  | Returned (PDict d) =>
      match lookup "messages" d with
      | None => true
      | Some (PList l) => forallb is_dict l
      | Some _ => false
      end
  | Returned _ => false
  | Raised e => is_SlackApiError e
  end.

(** The contract of post-message: success, or a platform-API error. *)
Definition post_conform (o : result pyval) : bool :=
  match o with
  | Returned _ => true
  | Raised e => is_SlackApiError e
  end.

(** One entry of the thread history. *)
Definition history_entry (msg : pydict) : pyval :=
  PDict [("role", PStr (if truthy (dict_get msg "bot_id" PNone)
                        then "assistant" else "user"));
         ("content", dict_get msg "text" (PStr ""))].

(** The test of line 167, negated: the reply is not the anchor. *)
Definition keeps (thread_ts : pyval) (msg : pydict) : bool :=
  negb (py_eq (dict_get msg "ts" PNone) thread_ts).

(** The thread identity in the words of the specification: [thread_ts] if
    present, otherwise the event's own [ts] ([None] when that is missing
    too). *)
Definition thread_identity (event : pydict) : pyval :=
  match lookup "thread_ts" event with
  | Some thread_ts => thread_ts
  | None => dict_get event "ts" PNone
  end.

(** The thread identity of a message, lines 78 and 85: [thread_ts] when
    it is truthy, otherwise the event's own [ts]. *)
Definition message_thread_ts (event : pydict) : pyval :=
  if truthy (dict_get event "thread_ts" PNone)
  then dict_get event "thread_ts" PNone
  else dict_get event "ts" PNone.

(** The value can be given to [WebClient]: it is [None] or a [str]. *)
Definition is_token (v : pyval) : bool :=
  match v with
  | PNone | PStr _ => true
  | _ => false
  end.

(** The message comes from a bot (line 71). *)
Definition from_bot (event : pydict) : bool :=
  truthy (dict_get event "bot_id" PNone) ||
  py_eq (dict_get event "subtype" PNone) (PStr "bot_message").

(** The call posts some text to the channel, under the thread, with the
    client of the token. *)
Definition posts_to (token channel thread_ts : pyval) (c : call) : Prop :=
  exists text, c = chat_postMessage token channel text thread_ts.

(** The bodies the endpoint writes: lines 19, 27, 129 and 149. *)
Definition endpoint_body (b : body) : Prop :=
  b = text "ok" \/
  (exists challenge, b = json_dumps (PDict [("challenge", challenge)])) \/
  (exists s, b = text ("Error sending message to Slack: " ++ s)) \/
  (exists s, b = text ("An error occurred: " ++ s)).

(** No dash in the string. *)
Fixpoint dash_free (s : string) : bool :=
  match s with
  | EmptyString => true
  | String c s' => negb (Ascii.eqb c "-") && dash_free s'
  end.

(** The same request, sent without the two retry headers. *)
Definition without_retry_headers (r : Request) : Request :=
  {| X_Slack_Retry_Num := None;
     X_Slack_Retry_Reason := None;
     get_json := get_json r |}.

(** ** A scripted platform, for the closed examples

    The platform answers the calls with the outcomes of a script, in order,
    and with [None] once the script is used up. *)

Definition scripted (script : list (result pyval)) (c : call)
  : result pyval * list (result pyval) :=
  match script with
  | o :: rest => (o, rest)
  | [] => (Returned PNone, [])
  end.

(** A stand-in for [repr] in the closed examples, none of which formats a
    list or a dict. *)
Definition sample_repr (v : pyval) : string :=
  match v with
  | PStr s => "'" ++ s ++ "'"
  | _ => "..."
  end.

(** ** Sample data for the closed examples *)

Definition sample_settings : pydict :=
  [("bot_token", PStr "xoxb-1"); ("app", PDict [("app_id", PStr "app-1")])].

Definition settings_without_app : pydict := [("bot_token", PStr "xoxb-1")].

Definition settings_with_numeric_token : pydict :=
  [("bot_token", PInt 7); ("app", PDict [("app_id", PStr "app-1")])].

Definition event_callback (event : pydict) : pyval :=
  PDict [("type", PStr "event_callback"); ("event", PDict event)].

Definition mention_event : pydict :=
  [("type", PStr "app_mention"); ("text", PStr "<@U123> hello there");
   ("channel", PStr "C42"); ("ts", PStr "1700000000.000100")].

Definition bare_mention : pydict :=
  [("type", PStr "app_mention"); ("text", PStr "<@U123> hello there");
   ("channel", PStr "C42")].

Definition dm_event : pydict :=
  [("type", PStr "message"); ("text", PStr "hi"); ("channel", PStr "D7");
   ("ts", PStr "1700000000.000200")].


Definition channel_chatter : pydict :=
  [("type", PStr "message"); ("text", PStr "lunch?"); ("channel", PStr "C42");
   ("ts", PStr "1700000000.000900")].

Definition thread_messages : list pydict :=
  [[("ts", PStr "1700000000.000100"); ("text", PStr "<@U123> hello there")];
   [("ts", PStr "1700000000.000300"); ("bot_id", PStr "B1");
    ("text", PStr "Hello!")];
   [("ts", PStr "1700000000.000400"); ("text", PStr "thanks")]].

Definition thread_replies : result pyval :=
  Returned (PDict [("ok", PBool true);
                   ("messages", PList (map PDict thread_messages))]).

Definition chat_answer : result pyval :=
  Returned (PDict [("answer", PStr "Hello!")]).

Definition posted : result pyval := Returned (PDict [("ok", PBool true)]).

Definition ratelimited : result pyval :=
  Raised (mk_exn SlackApiError "ratelimited").

Definition backend_down : exn := mk_exn OtherException "backend down".

Definition connection_reset : exn :=
  mk_exn OtherException "Connection reset by peer".

(** * Properties *)

Section Properties.

Variable py_repr : pyval -> string.
Variable World : Type.
Variable respond : World -> call -> result pyval * World.

(** ** Running composed programs *)

Lemma run_bind {A B : Type} (p : prog A) (f : A -> prog B) (w : World) :
  run respond w (bind p f) =
  match run respond w p with
  | (Returned a, t, w1) =>
      let '(r, t', w2) := run respond w1 (f a) in (r, (t ++ t')%list, w2)
  | (Raised e, t, w1) => (Raised e, t, w1)
  end.
Proof.
  revert w. induction p as [a | e | c k IH]; intro w; simpl.
  - destruct (run respond w (f a)) as [[r t] w2]. reflexivity.
  - reflexivity.
  - destruct (respond w c) as [o w1]. rewrite IH.
    destruct (run respond w1 (k o)) as [[[a | e] t] w2]; simpl.
    + destruct (run respond w2 (f a)) as [[r t'] w3]. reflexivity.
    + reflexivity.
Qed.

Lemma run_try_except {A : Type} (p : prog A)
      (handler : exn -> option (prog A)) (w : World) :
  run respond w (try_except p handler) =
  match run respond w p with
  | (Returned a, t, w1) => (Returned a, t, w1)
  | (Raised e, t, w1) =>
      match handler e with
      | Some h => let '(r, t', w2) := run respond w1 h in (r, (t ++ t')%list, w2)
      | None => (Raised e, t, w1)
      end
  end.
Proof.
  revert w. induction p as [a | e | c k IH]; intro w; simpl.
  - reflexivity.
  - destruct (handler e) as [h |]; simpl.
    + destruct (run respond w h) as [[r t] w2]. reflexivity.
    + reflexivity.
  - destruct (respond w c) as [o w1]. rewrite IH.
    destruct (run respond w1 (k o)) as [[[a | e] t] w2]; simpl.
    + reflexivity.
    + destruct (handler e) as [h |]; simpl.
      * destruct (run respond w2 h) as [[r t'] w3]. reflexivity.
      * reflexivity.
Qed.

Lemma run_of_result {A : Type} (r : result A) (w : World) :
  run respond w (of_result r) = (r, [], w).
Proof. destruct r; reflexivity. Qed.

(** ** The thread-history helper *)

Lemma history_loop_dicts (thread_ts : pyval) (msgs : list pydict) :
  forall history,
    history_loop (map PDict msgs) thread_ts history =
    Ret (history ++ map history_entry (filter (keeps thread_ts) msgs))%list.
Proof.
  induction msgs as [| msg rest IH]; intro history; simpl.
  - rewrite app_nil_r. reflexivity.
  - unfold keeps at 1.
    destruct (py_eq (dict_get msg "ts" PNone) thread_ts); simpl.
    + apply IH.
    + rewrite IH. rewrite <- app_assoc. reflexivity.
Qed.

(** The loop calls no collaborator: it returns a list or raises. *)
Lemma history_loop_pure (thread_ts : pyval) (msgs : list pyval) :
  forall history, exists r, history_loop msgs thread_ts history = of_result r.
Proof.
  induction msgs as [| msg rest IH]; intro history; simpl.
  - exists (Returned history). reflexivity.
  - destruct msg; simpl;
      try (eexists (Raised _); reflexivity).
    destruct (py_eq (dict_get d "ts" PNone) thread_ts); apply IH.
Qed.

(** C7.  Given the channel and the thread identity, the helper asks the
    platform for the replies once.  When the platform answers with a list
    of messages, the helper returns them in order as {role, content}
    entries (role assistant for a reply that carries a bot identifier, user
    otherwise), leaving out every message whose timestamp equals the thread
    identity.  When the call fails with a platform-API error, the helper
    returns the empty list and raises nothing. *)
Theorem get_thread_history_spec (w : World) (token channel thread_ts : pyval) :
  let c := conversations_replies token channel thread_ts in
  let o := fst (respond w c) in
  let w1 := snd (respond w c) in
  (forall d msgs,
      o = Returned (PDict d) ->
      dict_get d "messages" (PList []) = PList (map PDict msgs) ->
      run respond w (_get_thread_history token channel thread_ts) =
      (Returned (map history_entry (filter (keeps thread_ts) msgs)),
       [(c, o)], w1)) /\
  (forall e,
      o = Raised e -> is_SlackApiError e = true ->
      run respond w (_get_thread_history token channel thread_ts) =
      (Returned [], [(c, o)], w1)).
Proof.
  intros c o w1. subst c o w1. unfold _get_thread_history.
  split.
  - intros d msgs Ho Hmsgs. simpl.
    destruct (respond w (conversations_replies token channel thread_ts))
      as [o w1]. simpl in Ho. subst o. simpl.
    rewrite Hmsgs. simpl. rewrite history_loop_dicts. reflexivity.
  - intros e Ho He. simpl.
    destruct (respond w (conversations_replies token channel thread_ts))
      as [o w1]. simpl in Ho. subst o. simpl.
    unfold except_SlackApiError. rewrite He. reflexivity.
Qed.

(** ** Process and respond *)

Lemma all_dicts (l : list pyval) :
  forallb is_dict l = true -> exists msgs, l = map PDict msgs.
Proof.
  induction l as [| v l IH]; simpl; intro H.
  - exists []. reflexivity.
  - apply andb_prop in H. destruct H as [Hv Hl].
    destruct (IH Hl) as [msgs ->].
    destruct v; try discriminate. exists (d :: msgs). reflexivity.
Qed.

(** The helper makes exactly one call, whatever comes back. *)
Lemma get_thread_history_run (w : World) (token channel thread_ts : pyval) :
  let c := conversations_replies token channel thread_ts in
  exists r,
    run respond w (_get_thread_history token channel thread_ts) =
    (r, [(c, fst (respond w c))], snd (respond w c)) /\
    (replies_conform (fst (respond w c)) = true -> exists h, r = Returned h).
Proof.
  intro c. subst c. unfold _get_thread_history. simpl.
  destruct (respond w (conversations_replies token channel thread_ts))
    as [o w1]. simpl.
  destruct o as [v | e]; simpl.
  - destruct v; simpl;
      try (eexists; split; [reflexivity | discriminate]).
    unfold dict_get. destruct (lookup "messages" d) as [m |] eqn:Hm; simpl.
    + destruct m; simpl;
        try (eexists; split; [reflexivity | discriminate]).
      * destruct (history_loop_pure thread_ts
                    (map (fun c => PStr (String c EmptyString))
                         (list_ascii_of_string s)) []) as [r Hr].
        rewrite Hr. rewrite !run_try_except, run_of_result.
        destruct r as [h | e]; simpl.
        -- eexists; split; [reflexivity | discriminate].
        -- unfold except_SlackApiError.
           destruct (is_SlackApiError e); simpl;
             eexists; (split; [reflexivity | discriminate]).
      * destruct (history_loop_pure thread_ts l []) as [r Hr].
        rewrite Hr. rewrite !run_try_except, run_of_result.
        destruct r as [h | e]; simpl.
        -- eexists; split; [reflexivity | eauto].
        -- unfold except_SlackApiError.
           destruct (is_SlackApiError e); simpl.
           ++ eexists; split; [reflexivity | eauto].
           ++ eexists; split; [reflexivity |].
              intro Hl. destruct (all_dicts l Hl) as [msgs ->].
              rewrite history_loop_dicts in Hr. discriminate Hr.
      * destruct (history_loop_pure thread_ts
                    (map (fun kv => PStr (fst kv)) d0) []) as [r Hr].
        rewrite Hr. rewrite !run_try_except, run_of_result.
        destruct r as [h | e]; simpl.
        -- eexists; split; [reflexivity | discriminate].
        -- unfold except_SlackApiError.
           destruct (is_SlackApiError e); simpl;
             eexists; (split; [reflexivity | discriminate]).
    + eexists; split; [reflexivity | eauto].
  - unfold except_SlackApiError.
    destruct (is_SlackApiError e) eqn:He; simpl.
    + eexists; split; [reflexivity | eauto].
    + eexists; split; [reflexivity | discriminate].
Qed.

(** ** The endpoint: retry suppression and the verification handshake *)

Lemma retry_ignored_http_timeout (r : Request) (settings : pydict) :
  truthy (dict_get settings "allow_retry" PNone) = false ->
  X_Slack_Retry_Reason r = Some "http_timeout" ->
  retry_ignored py_repr r settings = Ret true.
Proof.
  intros Hallow Hreason. unfold retry_ignored.
  rewrite Hallow, Hreason. reflexivity.
Qed.

Lemma retry_ignored_positive_count (r : Request) (settings : pydict)
      (s : string) (n : Z) :
  truthy (dict_get settings "allow_retry" PNone) = false ->
  X_Slack_Retry_Num r = Some s -> parse_int s = Parsed n -> 0 < n ->
  retry_ignored py_repr r settings = Ret true.
Proof.
  intros Hallow Hnum Hparse Hpos. unfold retry_ignored.
  rewrite Hallow, Hnum. simpl.
  destruct (header_is (X_Slack_Retry_Reason r) "http_timeout");
    [reflexivity |].
  unfold py_int. rewrite Hparse. simpl.
  apply Z.ltb_lt in Hpos. rewrite Hpos. reflexivity.
Qed.

(** C1, as the code has it.  The reason that marks a redelivery is the
    header value http_timeout.  For every request whose retry reason is
    http_timeout, or whose retry count parses to a number above zero, when
    allow_retry is false or absent, the handler returns status 200 with
    body ok; it calls neither the backend nor the platform, and does not
    look at the payload (the request body may even fail to parse). *)
Theorem retry_suppressed (w : World) (r : Request) (settings : pydict) :
  truthy (dict_get settings "allow_retry" PNone) = false ->
  (X_Slack_Retry_Reason r = Some "http_timeout" \/
   exists s n, X_Slack_Retry_Num r = Some s /\ parse_int s = Parsed n /\ 0 < n) ->
  _invoke py_repr r settings = Ret ok_response /\
  run respond w (_invoke py_repr r settings) = (Returned ok_response, [], w).
Proof.
  intros Hallow Hflag.
  assert (Hret : _invoke py_repr r settings = Ret ok_response).
  { unfold _invoke.
    destruct Hflag as [Hreason | (s & n & Hnum & Hparse & Hpos)].
    - rewrite (retry_ignored_http_timeout r settings Hallow Hreason).
      reflexivity.
    - rewrite (retry_ignored_positive_count r settings s n
                 Hallow Hnum Hparse Hpos).
      reflexivity. }
  rewrite Hret. split; reflexivity.
Qed.

(** C4, as the code has it.  For every request that retry suppression lets
    through and whose payload has type url_verification, the handler
    returns status 200 with the JSON body {challenge: token}, the token
    being the one of the payload; it makes no call, and no later branch of
    the classification is consulted. *)
Theorem url_verification_echo (w : World) (r : Request) (settings : pydict)
        (data : pydict) :
  retry_ignored py_repr r settings = Ret false ->
  get_json r = Returned (PDict data) ->
  lookup "type" data = Some (PStr "url_verification") ->
  run respond w (_invoke py_repr r settings) =
  (Returned {| status := 200;
               response :=
                 json_dumps
                   (PDict [("challenge", dict_get data "challenge" PNone)]);
               content_type := Some "application/json" |},
   [], w).
Proof.
  intros Hretry Hjson Htype. unfold _invoke.
  rewrite Hretry, Hjson. simpl. unfold dict_get at 1. rewrite Htype.
  reflexivity.
Qed.

(** C5 fails on the code.  A payload of type event_callback without an
    event makes [event.get] fail on [None]: the handler raises
    AttributeError instead of returning a response.  So does a retry count
    that is not a number, with ValueError; and so does a failure of the
    apology post that is not a platform-API error, after the backend has
    failed. *)
Theorem invoke_raises :
  _invoke py_repr
    {| X_Slack_Retry_Num := None;
       X_Slack_Retry_Reason := None;
       get_json := Returned (PDict [("type", PStr "event_callback")]) |}
    [] =
  Raise (mk_exn AttributeError "'NoneType' object has no attribute 'get'") /\
  _invoke py_repr
    {| X_Slack_Retry_Num := Some "abc";
       X_Slack_Retry_Reason := None;
       get_json := Returned (PDict [("type", PStr "url_verification")]) |}
    [] =
  Raise (mk_exn ValueError
           ("invalid literal for int() with base 10: "
            ++ substring 0 200 (py_repr (PStr "abc")))) /\
  outcome_of
    (run scripted [Raised backend_down; Raised connection_reset]
         (_invoke py_repr
            {| X_Slack_Retry_Num := None;
               X_Slack_Retry_Reason := None;
               get_json := Returned (event_callback bare_mention) |}
            sample_settings)) =
  Raised connection_reset.
Proof. repeat split. Qed.

(** The two event handlers are reached as the dispatch of lines 33-42 says. *)
Lemma invoke_app_mention (r : Request) (settings data : pydict) (event : pydict) :
  retry_ignored py_repr r settings = Ret false ->
  get_json r = Returned (PDict data) ->
  lookup "type" data = Some (PStr "event_callback") ->
  lookup "event" data = Some (PDict event) ->
  lookup "type" event = Some (PStr "app_mention") ->
  _invoke py_repr r settings = _handle_mention py_repr (PDict event) settings.
Proof.
  intros Hretry Hjson Htype Hevent Hkind. unfold _invoke.
  rewrite Hretry, Hjson. cbn [bind of_result py_get].
  unfold dict_get. rewrite Htype. cbn [bind py_eq String.eqb Ascii.eqb Bool.eqb].
  rewrite Hevent. cbn [bind py_get]. unfold dict_get. rewrite Hkind.
  reflexivity.
Qed.

Lemma invoke_message (r : Request) (settings data : pydict) (event : pydict) :
  retry_ignored py_repr r settings = Ret false ->
  get_json r = Returned (PDict data) ->
  lookup "type" data = Some (PStr "event_callback") ->
  lookup "event" data = Some (PDict event) ->
  lookup "type" event = Some (PStr "message") ->
  _invoke py_repr r settings = _handle_message py_repr (PDict event) settings.
Proof.
  intros Hretry Hjson Htype Hevent Hkind. unfold _invoke.
  rewrite Hretry, Hjson. cbn [bind of_result py_get].
  unfold dict_get. rewrite Htype. cbn [bind py_eq String.eqb Ascii.eqb Bool.eqb].
  rewrite Hevent. cbn [bind py_get]. unfold dict_get. rewrite Hkind.
  reflexivity.
Qed.

(** ** Process and respond: the shape of a run *)

Ltac explore :=
  repeat (simpl in *;
          match goal with
          | |- context [respond ?w ?c] =>
              let o := fresh "o" in
              let w' := fresh "w" in
              destruct (respond w c) as [o w'] eqn:?; destruct o
          | |- context [match lookup ?k ?d with _ => _ end] =>
              destruct (lookup k d) eqn:?
          | |- context [py_get ?v _ _] => is_var v; destruct v
          | |- context [py_getitem ?v _] => is_var v; destruct v
          | |- context [match ?v with PNone => _ | _ => _ end] => destruct v
          | |- context [is_SlackApiError ?e] =>
              destruct (is_SlackApiError e) eqn:?
          end); simpl in *.

Lemma bind_Ret {A B : Type} (a : A) (f : A -> prog B) : bind (Ret a) f = f a.
Proof. reflexivity. Qed.

Lemma bind_Raise {A B : Type} (e : exn) (f : A -> prog B) :
  bind (Raise e) f = Raise e.
Proof. reflexivity. Qed.

(** Line 95 stands before the [try]: with a token that is neither [None]
    nor a [str] the handler raises before it makes any call. *)
Lemma process_without_client (message channel thread_ts : pyval)
      (settings : pydict) :
  is_token (dict_get settings "bot_token" PNone) = false ->
  _process_and_respond py_repr message channel thread_ts settings =
  Raise (no_attribute (dict_get settings "bot_token" PNone) "strip").
Proof.
  unfold _process_and_respond.
  destruct (dict_get settings "bot_token" PNone); simpl; intro H;
    first [discriminate H | reflexivity].
Qed.

(** Enters the body of process-and-respond with the client built; the
    goals of a token that cannot make one are left to [bad]. *)
Ltac build_client settings bad :=
  unfold _process_and_respond;
  destruct (dict_get settings "bot_token" PNone) eqn:?;
  unfold WebClient;
  first [rewrite bind_Ret; cbv beta | rewrite bind_Raise; solve [bad]].

(** What the history step of lines 99-101 leaves in the trace. *)
Lemma history_step_run (w : World) (token channel thread_ts : pyval) :
  let c := conversations_replies token channel thread_ts in
  exists r w1,
    run respond w
      (if truthy thread_ts
       then _get_thread_history token channel thread_ts
       else Ret []) =
    (r, (if truthy thread_ts then [(c, fst (respond w c))] else []), w1) /\
    ((truthy thread_ts = true -> replies_conform (fst (respond w c)) = true) ->
     exists h, r = Returned h).
Proof.
  intro c. destruct (truthy thread_ts).
  - destruct (get_thread_history_run w token channel thread_ts)
      as [r [Hr Hc]].
    exists r, (snd (respond w c)). split; [exact Hr |].
    intro H. apply Hc. apply H. reflexivity.
  - exists (Returned []), w. split; [reflexivity | eauto].
Qed.

(** The history step of the goal, as [history_step_run] gives it; what the
    fetch returned is then a value like any other. *)
Ltac history_step w channel thread_ts H :=
  match goal with
  | |- context [_get_thread_history ?token channel thread_ts] =>
      pose proof (history_step_run w token channel thread_ts) as H;
      cbv zeta in H
  end.

Ltac forget_fetch w :=
  match goal with
  | |- context [fst (respond w ?c)] =>
      let fetched := fresh "fetched" in
      generalize (fst (respond w c)); intro fetched
  end.

Ltac forget_state w :=
  match goal with
  | |- context [snd (respond w ?c)] =>
      let w1 := fresh "w" in
      generalize (snd (respond w c)); intro w1
  end.

Lemma process_backend_calls (w : World) (message channel thread_ts : pyval)
      (settings : pydict) :
  let x := run respond w
             (_process_and_respond py_repr message channel thread_ts settings) in
  backend_calls (trace_of x) = [] \/
  exists app_id,
    configured_app_id settings = Some app_id /\
    backend_calls (trace_of x) =
    [chat_invoke app_id message [] (conversation_id_of py_repr channel thread_ts)
                 "blocking" "slack-user"].
Proof.
  intro x. subst x.
  build_client settings ltac:(left; reflexivity).
  all: rewrite run_try_except, run_bind.
  all: history_step w channel thread_ts H; destruct H as (r & w1 & -> & _).
  all: forget_fetch w.
  all: unfold configured_app_id, except_Exception, except_SlackApiError,
         trace_of, backend_calls in *.
  all: destruct r as [h | e]; destruct (truthy thread_ts);
         explore; auto;
         right; eexists; split; reflexivity.
Qed.

(** With a client, an app configured and the history step completing, the
    backend is invoked, once, right after the history step. *)
Lemma process_invokes (w : World) (message channel thread_ts : pyval)
      (settings : pydict) (app_id : pyval) :
  let token := dict_get settings "bot_token" PNone in
  let fetch := conversations_replies token channel thread_ts in
  let invoke := chat_invoke app_id message []
                  (conversation_id_of py_repr channel thread_ts)
                  "blocking" "slack-user" in
  let x := run respond w
             (_process_and_respond py_repr message channel thread_ts settings) in
  is_token token = true ->
  configured_app_id settings = Some app_id ->
  (truthy thread_ts = true -> replies_conform (fst (respond w fetch)) = true) ->
  backend_calls (trace_of x) = [invoke] /\
  exists o rest,
    trace_of x =
    ((if truthy thread_ts then [(fetch, fst (respond w fetch))] else [])
       ++ (invoke, o) :: rest)%list /\
    existsb is_conversations_replies (map fst rest) = false.
Proof.
  intros token fetch invoke x Htoken Happ. subst x token fetch invoke.
  revert Htoken.
  build_client settings ltac:(discriminate).
  all: intros _ Hfetch.
  all: rewrite run_try_except, run_bind.
  all: history_step w channel thread_ts H; destruct H as (r & w1 & Hr & Hh).
  all: rewrite Hr; destruct (Hh Hfetch) as [h ->]; clear Hr Hh Hfetch.
  all: forget_fetch w.
  all: unfold configured_app_id in Happ.
  all: destruct (lookup "app" settings) as [[| | | | | app] |] eqn:Ha;
         try discriminate.
  all: unfold except_Exception, except_SlackApiError, trace_of, backend_calls.
  all: destruct (truthy thread_ts); simpl; rewrite Ha; simpl; rewrite Happ;
         explore; (split; [reflexivity | do 2 eexists; split; reflexivity]).
Qed.

(** C8 fails on the code.  A direct message is eligible; the backend
    raises, and the apology post then fails with an error that is not a
    platform-API error (the connection is reset).  That failure is not
    swallowed: line 144 catches [SlackApiError] only, so the endpoint
    raises it instead of returning status 200 with an error body. *)
Theorem apology_failure_escapes :
  let r := {| X_Slack_Retry_Num := None;
              X_Slack_Retry_Reason := None;
              get_json := Returned (event_callback dm_event) |} in
  is_SlackApiError connection_reset = false /\
  run scripted [thread_replies; Raised backend_down; Raised connection_reset]
      (_invoke py_repr r sample_settings) =
  (Raised connection_reset,
   [(conversations_replies (PStr "xoxb-1") (PStr "D7")
       (PStr "1700000000.000200"), thread_replies);
    (chat_invoke (PStr "app-1") (PStr "hi") []
       "slack-D7-1700000000.000200" "blocking" "slack-user",
     Raised backend_down);
    (chat_postMessage (PStr "xoxb-1") (PStr "D7") (PStr apology)
       (PStr "1700000000.000200"), Raised connection_reset)],
   []).
Proof. split; reflexivity. Qed.

(** X20.  In every run of process-and-respond in which the backend chat
    invocation raises an exception [e], the very next call posts the
    apology to the originating channel, threaded under the thread identity,
    and nothing follows it.  Provided that post succeeds or fails with a
    platform-API error, the handler returns status 200 with the plain-text
    body An error occurred: str(e). *)
Theorem backend_failure_is_reported
        (w : World) (message channel thread_ts : pyval) (settings : pydict)
        (c : call) (e : exn) :
  let token := dict_get settings "bot_token" PNone in
  let x := run respond w
             (_process_and_respond py_repr message channel thread_ts settings) in
  is_chat_invoke c = true ->
  In (c, Raised e) (trace_of x) ->
  exists before o,
    trace_of x =
    (before ++
     [(c, Raised e);
      (chat_postMessage token channel (PStr apology) thread_ts, o)])%list /\
    (post_conform o = true ->
     outcome_of x =
     Returned {| status := 200;
                 response := text ("An error occurred: " ++ exn_str e);
                 content_type := Some "text/plain" |}).
Proof.
  intros token x Hc. subst x token.
  build_client settings ltac:(simpl; intros []).
  all: rewrite run_try_except, run_bind.
  all: history_step w channel thread_ts H; destruct H as (r & w1 & -> & _).
  all: forget_fetch w.
  all: unfold except_Exception, except_SlackApiError, trace_of, outcome_of,
         post_conform.
  all: destruct r as [h | e0]; destruct (truthy thread_ts); explore.
  all: intro Hin;
    repeat match goal with
           | H : _ \/ _ |- _ => destruct H
           | H : (_, _) = (_, _) |- _ => inversion H; clear H; subst
           | H : False |- _ => destruct H
           end; try discriminate.
  all: first
         [ exists []; eexists; split; [reflexivity | intro; congruence]
         | eexists [_]; eexists; split; [reflexivity | intro; congruence] ].
Qed.

(** C9.  The arguments of the backend chat invocation do not depend on
    what the thread-history fetch produced.  Take any two runs of
    process-and-respond on the same message, channel, thread identity and
    settings, against any two states of the platform: whenever both invoke
    the backend, they do so with the same call, whose fields are the
    configured app id, the message, the empty inputs, the conversation
    identifier, blocking and slack-user, none of which holds the history.
    When both fetches stay within the contract of the platform, the two
    runs moreover agree on whether the backend is invoked. *)
Theorem backend_arguments_ignore_history
        (w1 w2 : World) (message channel thread_ts : pyval)
        (settings : pydict) :
  let p := _process_and_respond py_repr message channel thread_ts settings in
  let fetch := conversations_replies (dict_get settings "bot_token" PNone)
                 channel thread_ts in
  let t1 := trace_of (run respond w1 p) in
  let t2 := trace_of (run respond w2 p) in
  (forall c1 c2,
      In c1 (backend_calls t1) -> In c2 (backend_calls t2) ->
      c1 = c2 /\
      exists app_id,
        configured_app_id settings = Some app_id /\
        c1 = chat_invoke app_id message []
               (conversation_id_of py_repr channel thread_ts)
               "blocking" "slack-user") /\
  (replies_conform (fst (respond w1 fetch)) = true ->
   replies_conform (fst (respond w2 fetch)) = true ->
   backend_calls t1 = backend_calls t2).
Proof.
  intros p fetch t1 t2. subst p t1 t2.
  pose proof (process_backend_calls w1 message channel thread_ts settings)
    as H1.
  pose proof (process_backend_calls w2 message channel thread_ts settings)
    as H2.
  cbv zeta in H1, H2. split.
  - intros c1 c2 Hin1 Hin2.
    destruct H1 as [H1 | (a1 & Ha1 & H1)]; rewrite H1 in Hin1;
      [destruct Hin1 |].
    destruct H2 as [H2 | (a2 & Ha2 & H2)]; rewrite H2 in Hin2;
      [destruct Hin2 |].
    destruct Hin1 as [<- | []]. destruct Hin2 as [<- | []].
    assert (a1 = a2) by congruence. subst a2.
    split; [reflexivity | eauto].
  - intros Hc1 Hc2.
    destruct (is_token (dict_get settings "bot_token" PNone)) eqn:Htoken;
      [| rewrite (process_without_client message channel thread_ts settings
                    Htoken); reflexivity].
    destruct (configured_app_id settings) as [app_id |] eqn:Happ.
    + destruct (process_invokes w1 message channel thread_ts settings app_id
                  Htoken Happ (fun _ => Hc1)) as [-> _].
      destruct (process_invokes w2 message channel thread_ts settings app_id
                  Htoken Happ (fun _ => Hc2)) as [-> _].
      reflexivity.
    + destruct H1 as [-> | (a1 & Ha1 & _)]; [| discriminate].
      destruct H2 as [-> | (a2 & Ha2 & _)]; [| discriminate].
      reflexivity.
Qed.

(** ** Cutting a string at its first separator *)

Lemma prefix_cons (a b : ascii) (s1 s2 : string) :
  String.prefix (String a s1) (String b s2) =
  Ascii.eqb a b && String.prefix s1 s2.
Proof.
  simpl. destruct (ascii_dec a b) as [-> | Hne].
  - rewrite Ascii.eqb_refl. reflexivity.
  - apply Ascii.eqb_neq in Hne. rewrite Hne. reflexivity.
Qed.

Lemma prefix_nil (s : string) : String.prefix EmptyString s = true.
Proof. destruct s; reflexivity. Qed.

Lemma prefix_drop (sep s : string) :
  String.prefix sep s = true -> s = sep ++ drop (String.length sep) s.
Proof.
  revert s. induction sep as [| a sep IH]; intros s H.
  - reflexivity.
  - destruct s as [| b s]; [discriminate |].
    rewrite prefix_cons in H. apply andb_prop in H. destruct H as [Hab Hs].
    apply Ascii.eqb_eq in Hab. subst b. simpl. f_equal. apply IH. exact Hs.
Qed.

(** Where [sep] occurs, [split(sep, 1)] has two parts around it. *)
Lemma split1_in (sep s : string) :
  str_in sep s = true ->
  exists a b, split1 sep s = [a; b] /\ s = a ++ sep ++ b.
Proof.
  induction s as [| c s IH]; intro H.
  - simpl in H. rewrite orb_false_r in H. simpl. rewrite H.
    exists EmptyString, (drop (String.length sep) EmptyString).
    split; [reflexivity |]. apply (prefix_drop sep EmptyString H).
  - cbn [str_in] in H. cbn [split1].
    destruct (String.prefix sep (String c s)) eqn:Hp.
    + exists EmptyString, (drop (String.length sep) (String c s)).
      split; [reflexivity |]. apply (prefix_drop sep (String c s) Hp).
    + simpl in H. destruct (IH H) as (a & b & Hs & Heq).
      rewrite Hs. exists (String c a), b.
      split; [reflexivity |]. simpl. f_equal. exact Heq.
Qed.

Lemma str_in_app (sep pre post : string) :
  str_in sep (pre ++ sep ++ post) = true.
Proof.
  induction pre as [| c pre IH]; simpl.
  - assert (H : String.prefix sep (sep ++ post) = true).
    { clear. induction sep as [| a sep IH]; [destruct post; reflexivity |].
      simpl. destruct (ascii_dec a a); [exact IH | congruence]. }
    destruct (sep ++ post); simpl in *; rewrite H; reflexivity.
  - rewrite IH. apply orb_true_r.
Qed.

(** The cut is at the leftmost [> ]: the one before which no [> ] starts. *)
Lemma split1_first (pre post : string) :
  str_in "> " (pre ++ ">") = false ->
  split1 "> " (pre ++ "> " ++ post) = [pre; post].
Proof.
  induction pre as [| c pre IH]; intro H.
  - destruct post; reflexivity.
  - change ((String c pre) ++ ">") with (String c (pre ++ ">")) in H.
    cbn [str_in] in H. apply orb_false_elim in H. destruct H as [Hp Hin].
    change ((String c pre) ++ "> " ++ post)
      with (String c (pre ++ "> " ++ post)).
    cbn [split1].
    assert (Hp' : String.prefix "> " (String c (pre ++ "> " ++ post)) = false).
    { rewrite prefix_cons in *. apply andb_false_iff in Hp.
      apply andb_false_iff. destruct Hp as [Hc | Hs]; [left; exact Hc |].
      right. destruct pre as [| c' pre]; [reflexivity |].
      change (String c' pre ++ ">") with (String c' (pre ++ ">")) in Hs.
      change (String c' pre ++ "> " ++ post)
        with (String c' (pre ++ "> " ++ post)).
      rewrite prefix_cons in *. rewrite prefix_nil in *. exact Hs. }
    rewrite Hp'. rewrite (IH Hin). reflexivity.
Qed.

(** What [strip_mention] makes of a text. *)
Lemma strip_mention_str (t : string) :
  exists q,
    strip_mention (PStr t) = Ret (PStr q) /\
    (forall pre post,
        startswith t "<@" = true -> t = pre ++ "> " ++ post ->
        str_in "> " (pre ++ ">") = false -> q = post) /\
    (startswith t "<@" = false \/ str_in "> " t = false -> q = t).
Proof.
  unfold strip_mention.
  destruct (startswith t "<@") eqn:Hs.
  - destruct (str_in "> " t) eqn:Hin.
    + destruct (split1_in "> " t Hin) as (a & b & Hsplit & Heq).
      exists b. rewrite Hsplit. split; [reflexivity |]. split.
      * intros pre post _ Ht Hfirst.
        rewrite Ht in Hsplit. rewrite (split1_first pre post Hfirst) in Hsplit.
        congruence.
      * intros [H | H]; discriminate.
    + exists t. split; [reflexivity |]. split; [| reflexivity].
      intros pre post _ Ht _. rewrite Ht in Hin.
      rewrite str_in_app in Hin. discriminate.
  - exists t. split; [reflexivity |]. split; [| reflexivity].
    intros pre post H. discriminate.
Qed.

(** ** The two event handlers *)

(** A mention either fails on its text before any call, or goes on to
    process-and-respond with the stripped text. *)
Lemma handle_mention_cases (event settings : pydict) :
  let channel := dict_get event "channel" (PStr "") in
  (exists e, _handle_mention py_repr (PDict event) settings = Raise e) \/
  (exists t q,
      dict_get event "text" (PStr "") = PStr t /\
      strip_mention (PStr t) = Ret (PStr q) /\
      _handle_mention py_repr (PDict event) settings =
      _process_and_respond py_repr (PStr q) channel (thread_identity event)
        settings).
Proof.
  intro channel. subst channel. unfold _handle_mention.
  cbn [py_get bind].
  destruct (dict_get event "text" (PStr "")) as [| b | n | t | l | d] eqn:Ht;
    try (left; eexists; reflexivity).
  right. destruct (strip_mention_str t) as (q & Hq & _).
  exists t, q. split; [reflexivity |]. split; [exact Hq |].
  rewrite Hq. cbn [bind]. unfold thread_identity, dict_get.
  destruct (lookup "thread_ts" event); reflexivity.
Qed.

Lemma handle_message_cases (event settings : pydict) :
  let thread_ts := dict_get event "thread_ts" PNone in
  _handle_message py_repr (PDict event) settings =
  if from_bot event then Ret ok_response
  else match dict_get event "channel" (PStr "") with
       | PStr channel =>
           if negb (startswith channel "D") && negb (truthy thread_ts)
           then Ret ok_response
           else _process_and_respond py_repr
                  (dict_get event "text" (PStr "")) (PStr channel)
                  (if truthy thread_ts then thread_ts
                   else dict_get event "ts" PNone)
                  settings
       | v => Raise (no_attribute v "startswith")
       end.
Proof.
  intro thread_ts. subst thread_ts. unfold _handle_message, from_bot.
  cbn [py_get bind].
  destruct (truthy (dict_get event "bot_id" PNone)); cbn [bind orb];
    [reflexivity |].
  destruct (py_eq (dict_get event "subtype" PNone) (PStr "bot_message"));
    [reflexivity |].
  destruct (dict_get event "channel" (PStr "")) as [| b | n | ch | l | d];
    try reflexivity.
  cbn [py_startswith bind].
  destruct (negb (startswith ch "D") &&
            negb (truthy (dict_get event "thread_ts" PNone)));
    [reflexivity |].
  destruct (truthy (dict_get event "thread_ts" PNone)); reflexivity.
Qed.

(** C2, as the code has it.  Take a message event whose channel is a
    string (the empty one when the field is missing).  The backend is
    invoked only if the event carries no bot identifier and no bot_message
    subtype, and its channel starts with D or it has a thread_ts; carrying
    a field is read as the code tests it, the value being truthy.  Such an
    event does reach the backend, once, when the bot token is None or a
    string, an app is configured and the thread fetch, if one is made,
    stays within the contract of the platform.  An event that comes from a
    bot, or is not addressed, gets status 200 with body ok, and neither the
    backend nor the platform is called. *)
Theorem message_gate (w : World) (event settings : pydict) (channel : string) :
  dict_get event "channel" (PStr "") = PStr channel ->
  let bot := truthy (dict_get event "bot_id" PNone) ||
             py_eq (dict_get event "subtype" PNone) (PStr "bot_message") in
  let addressed := startswith channel "D" ||
                   truthy (dict_get event "thread_ts" PNone) in
  let token := dict_get settings "bot_token" PNone in
  let fetch := conversations_replies token (PStr channel)
                 (message_thread_ts event) in
  let x := run respond w (_handle_message py_repr (PDict event) settings) in
  (backend_calls (trace_of x) <> [] -> bot = false /\ addressed = true) /\
  (forall app_id,
      bot = false -> addressed = true ->
      is_token token = true ->
      configured_app_id settings = Some app_id ->
      (truthy (message_thread_ts event) = true ->
       replies_conform (fst (respond w fetch)) = true) ->
      backend_calls (trace_of x) =
      [chat_invoke app_id (dict_get event "text" (PStr "")) []
                   (conversation_id_of py_repr (PStr channel)
                      (message_thread_ts event))
                   "blocking" "slack-user"]) /\
  (~ (bot = false /\ addressed = true) ->
   outcome_of x = Returned ok_response /\ trace_of x = []).
Proof.
  intros Hchannel bot addressed token fetch x. subst x fetch token.
  rewrite handle_message_cases. cbv zeta. fold bot. unfold from_bot.
  fold bot. rewrite Hchannel.
  replace (negb (startswith channel "D") &&
           negb (truthy (dict_get event "thread_ts" PNone)))
    with (negb addressed)
    by (unfold addressed; apply negb_orb).
  fold (message_thread_ts event).
  destruct bot; [| destruct addressed]; cbn [negb].
  - simpl. split; [| split].
    + intro H. exfalso. apply H. reflexivity.
    + intros app_id H. discriminate H.
    + intros _. split; reflexivity.
  - split; [| split].
    + intros _. split; reflexivity.
    + intros app_id _ _ Htoken Happ Hfetch.
      destruct (process_invokes w (dict_get event "text" (PStr ""))
                  (PStr channel) (message_thread_ts event)
                  settings app_id Htoken Happ Hfetch) as [Hcalls _].
      exact Hcalls.
    + intro H. exfalso. apply H. split; reflexivity.
  - simpl. split; [| split].
    + intro H. exfalso. apply H. reflexivity.
    + intros app_id _ H. discriminate H.
    + intros _. split; reflexivity.
Qed.

(** The conversation identifier of the backend calls of the two handlers. *)
Lemma mention_conversation_id (w : World) (event settings : pydict) (c : call) :
  In c (backend_calls
          (trace_of (run respond w
                       (_handle_mention py_repr (PDict event) settings)))) ->
  conversation_id_arg c =
  Some (conversation_id_of py_repr (dict_get event "channel" (PStr ""))
          (thread_identity event)).
Proof.
  intro Hin.
  destruct (handle_mention_cases event settings)
    as [[e He] | (t & q & _ & _ & He)]; rewrite He in Hin.
  - destruct Hin.
  - pose proof (process_backend_calls w (PStr q)
                  (dict_get event "channel" (PStr ""))
                  (thread_identity event) settings) as H.
    cbv zeta in H. destruct H as [H | (a & _ & H)]; rewrite H in Hin.
    + destruct Hin.
    + destruct Hin as [<- | []]. reflexivity.
Qed.




(** Without a thread identity no history is asked for (line 100). *)
Lemma process_skips_fetch (w : World) (message channel thread_ts : pyval)
      (settings : pydict) :
  truthy thread_ts = false ->
  existsb is_conversations_replies
    (map fst (trace_of (run respond w
                          (_process_and_respond py_repr message channel
                             thread_ts settings)))) = false.
Proof.
  intro Ht. build_client settings ltac:(reflexivity).
  all: rewrite run_try_except, run_bind, Ht.
  all: unfold except_Exception, except_SlackApiError, trace_of.
  all: explore; reflexivity.
Qed.

(** C10, as the code has it.  For a mention that carries neither thread_ts
    nor ts, its channel being a string, the handler never asks for the
    thread history, and every backend invocation it makes carries the
    conversation identifier slack-, the channel, and -None.  The backend is
    invoked, first and once, when the text of the mention is a string, the
    bot token is None or a string and an app is configured. *)
Theorem mention_without_timestamps (w : World) (event settings : pydict)
        (channel : string) :
  lookup "thread_ts" event = None ->
  lookup "ts" event = None ->
  dict_get event "channel" (PStr "") = PStr channel ->
  let token := dict_get settings "bot_token" PNone in
  let x := run respond w (_handle_mention py_repr (PDict event) settings) in
  existsb is_conversations_replies (map fst (trace_of x)) = false /\
  (forall c,
      In c (backend_calls (trace_of x)) ->
      conversation_id_arg c = Some ("slack-" ++ channel ++ "-None")) /\
  (forall t app_id,
      dict_get event "text" (PStr "") = PStr t ->
      is_token token = true ->
      configured_app_id settings = Some app_id ->
      exists query o rest,
        trace_of x =
        (chat_invoke app_id query [] ("slack-" ++ channel ++ "-None")
                     "blocking" "slack-user", o) :: rest /\
        backend_calls (trace_of x) =
        [chat_invoke app_id query [] ("slack-" ++ channel ++ "-None")
                     "blocking" "slack-user"]).
Proof.
  intros Hthread Hts Hchannel token x. subst x token.
  assert (Hid : thread_identity event = PNone).
  { unfold thread_identity, dict_get. rewrite Hthread, Hts. reflexivity. }
  split; [| split].
  - destruct (handle_mention_cases event settings)
      as [[e He] | (t & q & _ & _ & He)]; rewrite He; [reflexivity |].
    rewrite Hid. apply process_skips_fetch. reflexivity.
  - intros c Hin.
    rewrite (mention_conversation_id w event settings c Hin).
    rewrite Hid, Hchannel. reflexivity.
  - intros t app_id Ht Htoken Happ.
    destruct (strip_mention_str t) as (q & Hq & _).
    assert (He : _handle_mention py_repr (PDict event) settings =
                 _process_and_respond py_repr (PStr q) (PStr channel) PNone
                   settings).
    { unfold _handle_mention. cbn [py_get bind]. rewrite Ht, Hq.
      cbn [bind]. rewrite Hchannel. unfold dict_get.
      rewrite Hthread, Hts. reflexivity. }
    rewrite He.
    destruct (process_invokes w (PStr q) (PStr channel) PNone settings app_id
                Htoken Happ (fun H => False_ind _ (Bool.diff_false_true H)))
      as (Hcalls & o & rest & Htrace & Hrest).
    cbn [truthy app] in Htrace.
    rewrite Hcalls, Htrace.
    do 3 eexists. split; reflexivity.
Qed.

(** ** More on process-and-respond *)

Ltac enter_process w settings channel thread_ts bad :=
  build_client settings bad;
  rewrite run_try_except, run_bind;
  let H := fresh "H" in
  history_step w channel thread_ts H;
  let r := fresh "r" in
  let w1 := fresh "w" in
  destruct H as (r & w1 & -> & _);
  forget_fetch w;
  unfold except_Exception, except_SlackApiError, trace_of, outcome_of,
    post_conform;
  destruct r; destruct (truthy thread_ts); explore.

Lemma process_raise_shape
      (w : World) (message channel thread_ts : pyval) (settings : pydict)
      (e : exn) :
  let token := dict_get settings "bot_token" PNone in
  let x := run respond w
             (_process_and_respond py_repr message channel thread_ts settings) in
  outcome_of x = Raised e ->
  (is_token token = false /\
   e = no_attribute token "strip" /\ trace_of x = []) \/
  (is_token token = true /\
   is_SlackApiError e = false /\
   exists before,
     trace_of x =
     (before ++
      [(chat_postMessage token channel (PStr apology) thread_ts,
        Raised e)])%list).
Proof.
  intros token x. subst x token.
  enter_process w settings channel thread_ts
    ltac:(simpl; intro Hout; injection Hout as <-; left; repeat split).
  all: intro Hout; try discriminate; injection Hout as <-.
  all: right; split; [reflexivity |]; split; [congruence |].
  all: first [ exists []; reflexivity
             | eexists [_]; reflexivity
             | eexists [_; _]; reflexivity
             | eexists [_; _; _]; reflexivity ].
Qed.

(** X2.  Process-and-respond raises in two cases only.  Either the bot
    token is neither None nor a string: the client cannot be built and the
    AttributeError of line 95 is raised before any call is made.  Or the
    apology post itself fails with something other than a platform-API
    error: the exception raised is then the one of that post, which is the
    last call of the run. *)
Theorem process_raises_only_from_apology
        (w : World) (message channel thread_ts : pyval) (settings : pydict)
        (e : exn) :
  let token := dict_get settings "bot_token" PNone in
  let x := run respond w
             (_process_and_respond py_repr message channel thread_ts settings) in
  outcome_of x = Raised e ->
  (is_token token = false /\
   e = no_attribute token "strip" /\ trace_of x = []) \/
  (is_token token = true /\
   is_SlackApiError e = false /\
   exists before,
     trace_of x =
     (before ++
      [(chat_postMessage token channel (PStr apology) thread_ts,
        Raised e)])%list).
Proof.
  exact (process_raise_shape w message channel thread_ts settings e).
Qed.

(** X3.  With a bot token that is None or a string, the calls of a run of
    process-and-respond come in a fixed order: the thread fetch (made
    exactly when the thread identity is truthy), then at most one backend
    invocation, then one or two posts.  Every post goes to the channel and
    thread the handler was given, with the configured token; so every such
    run ends with a post. *)
Theorem process_trace_shape
        (w : World) (message channel thread_ts : pyval) (settings : pydict) :
  let token := dict_get settings "bot_token" PNone in
  let x := run respond w
             (_process_and_respond py_repr message channel thread_ts settings) in
  is_token token = true ->
  exists fetched invoked posts,
    trace_of x = (fetched ++ invoked ++ posts)%list /\
    (if truthy thread_ts
     then exists o, fetched = [(conversations_replies token channel thread_ts, o)]
     else fetched = []) /\
    (invoked = [] \/
     exists app_id o,
       configured_app_id settings = Some app_id /\
       invoked = [(chat_invoke app_id message []
                     (conversation_id_of py_repr channel thread_ts)
                     "blocking" "slack-user", o)]) /\
    (1 <= List.length posts <= 2)%nat /\
    Forall (fun ev => posts_to token channel thread_ts (fst ev)) posts.
Proof.
  intros token x. subst x token. unfold configured_app_id, posts_to.
  build_client settings ltac:(discriminate).
  all: intros _.
  all: rewrite run_try_except, run_bind.
  all: history_step w channel thread_ts H; destruct H as (r & w1 & -> & _).
  all: forget_fetch w.
  all: unfold except_Exception, except_SlackApiError, trace_of.
  all: destruct r; destruct (truthy thread_ts) eqn:Ht; explore.
  all: try rewrite Ht.
  all: first
         [ eexists [_], [], _;
           split; [reflexivity |];
           split; [eexists; reflexivity |];
           split; [left; reflexivity |];
           split; [simpl; lia |];
           repeat constructor; eexists; reflexivity
         | eexists [_], [_], _;
           split; [reflexivity |];
           split; [eexists; reflexivity |];
           split; [right; do 2 eexists; split; reflexivity |];
           split; [simpl; lia |];
           repeat constructor; eexists; reflexivity
         | exists [], []; eexists;
           split; [reflexivity |];
           split; [reflexivity |];
           split; [left; reflexivity |];
           split; [simpl; lia |];
           repeat constructor; eexists; reflexivity
         | exists []; eexists [_], _;
           split; [reflexivity |];
           split; [reflexivity |];
           split; [right; do 2 eexists; split; reflexivity |];
           split; [simpl; lia |];
           repeat constructor; eexists; reflexivity ].
Qed.

Ltac split_cases :=
  repeat match goal with
         | H : _ \/ _ |- _ => destruct H
         | H : (_, _) = (_, _) |- _ => inversion H; clear H; subst
         | H : False |- _ => destruct H
         end.

Ltac clash :=
  exfalso;
  match goal with
  | H1 : is_SlackApiError ?e = true, H2 : is_SlackApiError ?e = false |- _ =>
      rewrite H1 in H2; discriminate H2
  | H : true = false |- _ => discriminate H
  | H : false = true |- _ => discriminate H
  end.

Ltac report_tail :=
  eexists;
  (split; [reflexivity
          | let Hp := fresh "Hp" in
            intro Hp; cbn in Hp; first [reflexivity | clash]]).

Ltac relay_tail :=
  do 2 eexists;
  (split; [reflexivity |]);
  (split;
   [ intros [? ?]; first [discriminate | split; reflexivity]
   | intros ? He1 ?;
     first [ discriminate
           | injection He1 as <-; first [split; reflexivity | clash] ] ]).

Ltac failure_tail :=
  do 2 eexists;
  (split; [reflexivity |]);
  intros ? He1 ?;
  first [ discriminate
        | injection He1 as <-; first [clash | report_tail] ].

(** X4.  When the backend returns an object, the next call posts its
    answer member ([None] when it has none) to the channel, under the
    thread identity.  If that post succeeds the handler returns status 200
    with body ok; if it fails with a platform-API error the handler returns
    status 200 with the plain-text body Error sending message to Slack:
    str(e).  In both cases the post is the last call: no apology is sent. *)
Theorem answer_is_relayed
        (w : World) (message channel thread_ts : pyval) (settings : pydict)
        (c : call) (d : pydict) :
  let token := dict_get settings "bot_token" PNone in
  let x := run respond w
             (_process_and_respond py_repr message channel thread_ts settings) in
  is_chat_invoke c = true ->
  In (c, Returned (PDict d)) (trace_of x) ->
  exists before o rest,
    trace_of x =
    (before ++
     (c, Returned (PDict d))
     :: (chat_postMessage token channel (dict_get d "answer" PNone) thread_ts,
         o)
     :: rest)%list /\
    ((exists v, o = Returned v) ->
     rest = [] /\ outcome_of x = Returned ok_response) /\
    (forall e,
        o = Raised e -> is_SlackApiError e = true ->
        rest = [] /\
        outcome_of x =
        Returned {| status := 200;
                    response := text ("Error sending message to Slack: "
                                      ++ exn_str e);
                    content_type := Some "text/plain" |}).
Proof.
  intros token x Hc. subst x token.
  enter_process w settings channel thread_ts ltac:(simpl; intros []).
  all: intro Hin; split_cases; try discriminate.
  all: first [ exists []; relay_tail | eexists [_]; relay_tail ].
Qed.

(** X5.  When the backend returns an object and the post of its answer
    fails with something other than a platform-API error, the catch-all
    takes over: the apology is posted next, as a second and last post, and
    the handler reports that error in a status 200 response, provided the
    apology post succeeds or fails with a platform-API error. *)
Theorem answer_post_failure_is_reported
        (w : World) (message channel thread_ts : pyval) (settings : pydict)
        (c : call) (d : pydict) :
  let token := dict_get settings "bot_token" PNone in
  let x := run respond w
             (_process_and_respond py_repr message channel thread_ts settings) in
  is_chat_invoke c = true ->
  In (c, Returned (PDict d)) (trace_of x) ->
  exists before o rest,
    trace_of x =
    (before ++
     (c, Returned (PDict d))
     :: (chat_postMessage token channel (dict_get d "answer" PNone) thread_ts,
         o)
     :: rest)%list /\
    (forall e,
        o = Raised e -> is_SlackApiError e = false ->
        exists o2,
          rest = [(chat_postMessage token channel (PStr apology) thread_ts,
                   o2)] /\
          (post_conform o2 = true ->
           outcome_of x =
           Returned {| status := 200;
                       response := text ("An error occurred: " ++ exn_str e);
                       content_type := Some "text/plain" |})).
Proof.
  intros token x Hc. subst x token.
  enter_process w settings channel thread_ts ltac:(simpl; intros []).
  all: intro Hin; split_cases; try discriminate.
  all: first [ exists []; failure_tail | eexists [_]; failure_tail ].
Qed.

(** X6.  When the backend returns something that is not an object (for
    instance [None]), reading its answer fails: no answer is posted, the
    apology is, and the handler reports the AttributeError in a status 200
    response. *)
Theorem backend_answer_not_an_object
        (w : World) (message channel thread_ts : pyval) (settings : pydict)
        (c : call) (v : pyval) :
  let token := dict_get settings "bot_token" PNone in
  let x := run respond w
             (_process_and_respond py_repr message channel thread_ts settings) in
  is_chat_invoke c = true ->
  is_dict v = false ->
  In (c, Returned v) (trace_of x) ->
  exists before o,
    trace_of x =
    (before ++
     [(c, Returned v);
      (chat_postMessage token channel (PStr apology) thread_ts, o)])%list /\
    (post_conform o = true ->
     outcome_of x =
     Returned {| status := 200;
                 response :=
                   text ("An error occurred: '" ++ type_name v
                         ++ "' object has no attribute 'get'");
                 content_type := Some "text/plain" |}).
Proof.
  intros token x Hc Hv. subst x token.
  enter_process w settings channel thread_ts ltac:(simpl; intros []).
  all: intro Hin; split_cases; try discriminate.
  all: first [ exists []; report_tail | eexists [_]; report_tail ].
Qed.

(** The helper lets through what is not a platform-API error. *)
Lemma get_thread_history_raises (w : World) (token channel thread_ts : pyval)
      (e : exn) :
  let c := conversations_replies token channel thread_ts in
  fst (respond w c) = Raised e -> is_SlackApiError e = false ->
  run respond w (_get_thread_history token channel thread_ts) =
  (Raised e, [(c, Raised e)], snd (respond w c)).
Proof.
  intros c Ho He. subst c. unfold _get_thread_history. simpl.
  destruct (respond w (conversations_replies token channel thread_ts))
    as [o w1]. simpl in Ho. subst o. simpl.
  unfold except_SlackApiError. rewrite He. reflexivity.
Qed.

Lemma history_loop_not_dict (thread_ts : pyval) (good : list pydict)
      (v : pyval) (rest : list pyval) :
  is_dict v = false ->
  forall history,
    history_loop (map PDict good ++ v :: rest) thread_ts history =
    Raise (no_attribute v "get").
Proof.
  intro Hv. induction good as [| msg good IH]; intro history; simpl.
  - destruct v; try reflexivity. discriminate.
  - destruct (py_eq (dict_get msg "ts" PNone) thread_ts); apply IH.
Qed.

(** X9.  The thread-history helper swallows platform-API errors only.  An
    exception of another class raised by the fetch is raised again by the
    helper; and a reply that is not an object makes the helper raise
    AttributeError, whatever the replies before it. *)
Theorem get_thread_history_propagates
        (w : World) (token channel thread_ts : pyval) :
  let c := conversations_replies token channel thread_ts in
  let o := fst (respond w c) in
  let w1 := snd (respond w c) in
  (forall e,
      o = Raised e -> is_SlackApiError e = false ->
      run respond w (_get_thread_history token channel thread_ts) =
      (Raised e, [(c, o)], w1)) /\
  (forall d good v rest,
      o = Returned (PDict d) ->
      dict_get d "messages" (PList []) =
      PList (map PDict good ++ v :: rest) ->
      is_dict v = false ->
      run respond w (_get_thread_history token channel thread_ts) =
      (Raised (no_attribute v "get"), [(c, o)], w1)).
Proof.
  intros c o w1. subst c o w1. split.
  - intros e Ho He. rewrite Ho.
    apply (get_thread_history_raises w token channel thread_ts e Ho He).
  - intros d good v rest Ho Hmsgs Hv. unfold _get_thread_history. simpl.
    destruct (respond w (conversations_replies token channel thread_ts))
      as [o w1]. simpl in Ho. subst o. simpl.
    rewrite Hmsgs. simpl.
    rewrite (history_loop_not_dict thread_ts good v rest Hv).
    simpl. destruct v; reflexivity.
Qed.

(** X21.  A platform response without data, or one whose messages member
    is [None], makes the helper raise TypeError: [result.get] gives [None],
    which the loop cannot iterate, and the helper catches platform-API
    errors only. *)
Theorem get_thread_history_without_messages
        (w : World) (token channel thread_ts : pyval) :
  let c := conversations_replies token channel thread_ts in
  let o := fst (respond w c) in
  let w1 := snd (respond w c) in
  let not_iterable := mk_exn TypeError "'NoneType' object is not iterable" in
  (o = Returned PNone ->
   run respond w (_get_thread_history token channel thread_ts) =
   (Raised not_iterable, [(c, o)], w1)) /\
  (forall d,
      o = Returned (PDict d) ->
      lookup "messages" d = Some PNone ->
      run respond w (_get_thread_history token channel thread_ts) =
      (Raised not_iterable, [(c, o)], w1)).
Proof.
  intros c o w1 not_iterable. subst c o w1 not_iterable.
  unfold _get_thread_history. split.
  - intro Ho. simpl.
    destruct (respond w (conversations_replies token channel thread_ts))
      as [o w1]. simpl in Ho. subst o. reflexivity.
  - intros d Ho Hmsgs. simpl.
    destruct (respond w (conversations_replies token channel thread_ts))
      as [o w1]. simpl in Ho. subst o. simpl.
    unfold dict_get. rewrite Hmsgs. reflexivity.
Qed.

(** X8.  With a bot token that is None or a string: when the thread fetch
    fails with something other than a platform-API error, the backend is
    not invoked and the apology post is the only other call.  Provided
    that post succeeds or fails with a platform-API error, the handler
    reports the error of the fetch in a status 200 response. *)
Theorem fetch_failure_skips_backend
        (w : World) (message channel thread_ts : pyval) (settings : pydict)
        (e : exn) :
  let token := dict_get settings "bot_token" PNone in
  let fetch := conversations_replies token channel thread_ts in
  let x := run respond w
             (_process_and_respond py_repr message channel thread_ts settings) in
  is_token token = true ->
  truthy thread_ts = true ->
  fst (respond w fetch) = Raised e ->
  is_SlackApiError e = false ->
  exists o,
    trace_of x =
    [(fetch, Raised e);
     (chat_postMessage token channel (PStr apology) thread_ts, o)] /\
    (post_conform o = true ->
     outcome_of x =
     Returned {| status := 200;
                 response := text ("An error occurred: " ++ exn_str e);
                 content_type := Some "text/plain" |}).
Proof.
  intros token fetch x. subst x token fetch.
  build_client settings ltac:(discriminate).
  all: intros _ Ht Ho He.
  all: rewrite run_try_except, run_bind; rewrite Ht.
  all: rewrite (get_thread_history_raises w _ channel thread_ts e Ho He).
  all: unfold except_Exception, except_SlackApiError, trace_of, outcome_of,
         post_conform.
  all: forget_state w.
  all: explore; eexists; (split; [reflexivity | intro; congruence]).
Qed.

(** X7.  With a bot token that is None or a string and no app in the
    settings, the backend is never invoked.  The thread is still fetched
    when there is a thread identity; then, the fetch staying within its
    contract, the apology is posted as the only other call.  Provided that
    post succeeds or fails with a platform-API error, the handler reports
    the KeyError of the missing key in a status 200 response. *)
Theorem missing_app_is_reported
        (w : World) (message channel thread_ts : pyval) (settings : pydict) :
  let token := dict_get settings "bot_token" PNone in
  let fetch := conversations_replies token channel thread_ts in
  let x := run respond w
             (_process_and_respond py_repr message channel thread_ts settings) in
  is_token token = true ->
  lookup "app" settings = None ->
  (truthy thread_ts = true -> replies_conform (fst (respond w fetch)) = true) ->
  exists o,
    trace_of x =
    ((if truthy thread_ts then [(fetch, fst (respond w fetch))] else [])
       ++ [(chat_postMessage token channel (PStr apology) thread_ts, o)])%list /\
    (post_conform o = true ->
     outcome_of x =
     Returned {| status := 200;
                 response := text "An error occurred: 'app'";
                 content_type := Some "text/plain" |}).
Proof.
  intros token fetch x. subst x token fetch.
  build_client settings ltac:(discriminate).
  all: intros _ Happ Hfetch.
  all: rewrite run_try_except, run_bind.
  all: history_step w channel thread_ts H; destruct H as (r & w1 & Hr & Hh).
  all: rewrite Hr; destruct (Hh Hfetch) as [h ->]; clear Hr Hh Hfetch.
  all: forget_fetch w.
  all: unfold except_Exception, except_SlackApiError, trace_of, outcome_of,
         post_conform.
  all: destruct (truthy thread_ts); simpl; rewrite Happ;
         explore; eexists; (split; [reflexivity | intro; congruence]).
Qed.

(** ** What the endpoint answers *)

Lemma process_responses
      (w : World) (message channel thread_ts : pyval) (settings : pydict)
      (resp : Response) :
  outcome_of (run respond w
                (_process_and_respond py_repr message channel thread_ts
                   settings)) = Returned resp ->
  status resp = 200 /\ endpoint_body (response resp).
Proof.
  unfold endpoint_body.
  enter_process w settings channel thread_ts ltac:(simpl; discriminate).
  all: intro Hout; try discriminate; injection Hout as <-.
  all: split; [reflexivity |]; simpl.
  all: first [ left; reflexivity
             | right; right; left; eexists; reflexivity
             | right; right; right; eexists; reflexivity ].
Qed.

Lemma handle_mention_responses
      (w : World) (event : pyval) (settings : pydict) (resp : Response) :
  outcome_of (run respond w (_handle_mention py_repr event settings)) =
  Returned resp ->
  status resp = 200 /\ endpoint_body (response resp).
Proof.
  destruct event as [| b | n | s | l | ev]; try discriminate.
  destruct (handle_mention_cases ev settings)
    as [[e ->] | (t & q & _ & _ & ->)].
  - discriminate.
  - apply process_responses.
Qed.

Lemma handle_message_responses
      (w : World) (event : pyval) (settings : pydict) (resp : Response) :
  outcome_of (run respond w (_handle_message py_repr event settings)) =
  Returned resp ->
  status resp = 200 /\ endpoint_body (response resp).
Proof.
  destruct event as [| b | n | s | l | ev]; try discriminate.
  rewrite handle_message_cases. cbv zeta.
  assert (Hok : outcome_of (run respond w (Ret ok_response)) = Returned resp ->
                status resp = 200 /\ endpoint_body (response resp)).
  { intro H. injection H as <-. split; [reflexivity | left; reflexivity]. }
  destruct (from_bot ev); [exact Hok |].
  destruct (dict_get ev "channel" (PStr "")); try discriminate.
  destruct (negb (startswith s "D") &&
            negb (truthy (dict_get ev "thread_ts" PNone))); [exact Hok |].
  apply process_responses.
Qed.

Lemma retry_ignored_pure (r : Request) (settings : pydict) :
  exists b, retry_ignored py_repr r settings = of_result b.
Proof.
  unfold retry_ignored, py_int.
  destruct (negb (truthy (dict_get settings "allow_retry" PNone)));
    [| exists (Returned false); reflexivity].
  destruct (header_is (X_Slack_Retry_Reason r) "http_timeout");
    [exists (Returned true); reflexivity |].
  destruct (X_Slack_Retry_Num r) as [s |];
    [| exists (Returned false); reflexivity].
  destruct (parse_int s); simpl;
    [eexists (Returned _) | eexists (Raised _) | eexists (Raised _)];
    reflexivity.
Qed.

(** X1.  Whenever the endpoint returns a response, its status is 200 and
    its body is one of four: the text ok, the JSON object holding the
    challenge, the text Error sending message to Slack: followed by a
    message, or the text An error occurred: followed by a message. *)
Theorem invoke_responses
        (w : World) (r : Request) (settings : pydict) (resp : Response) :
  outcome_of (run respond w (_invoke py_repr r settings)) = Returned resp ->
  status resp = 200 /\ endpoint_body (response resp).
Proof.
  assert (Hok : outcome_of (run respond w (Ret ok_response)) = Returned resp ->
                status resp = 200 /\ endpoint_body (response resp)).
  { intro H. injection H as <-. split; [reflexivity | left; reflexivity]. }
  unfold _invoke.
  destruct (retry_ignored_pure r settings) as [[[|] | e] ->]; cbn [of_result bind];
    [exact Hok | | discriminate].
  destruct (get_json r) as [data | e]; cbn [of_result bind];
    [| discriminate].
  destruct data as [| b | n | s | l | d]; try discriminate.
  cbn [py_get bind].
  destruct (py_eq (dict_get d "type" PNone) (PStr "url_verification")).
  - intro H. injection H as <-. split; [reflexivity |].
    right. left. eexists. reflexivity.
  - destruct (py_eq (dict_get d "type" PNone) (PStr "event_callback"));
      [| exact Hok].
    destruct (dict_get d "event" PNone) as [| b | n | s | l | ev] eqn:Hev;
      try discriminate.
    cbn [py_get bind].
    destruct (py_eq (dict_get ev "type" PNone) (PStr "app_mention")).
    + apply handle_mention_responses.
    + destruct (py_eq (dict_get ev "type" PNone) (PStr "message"));
        [apply handle_message_responses | exact Hok].
Qed.

(** ** More on the mention and on the key *)

Lemma split1_two (sep s a b : string) :
  split1 sep s = [a; b] -> s = a ++ sep ++ b.
Proof.
  revert a. induction s as [| c s IH]; intros a H.
  - cbn [split1] in H. destruct (String.prefix sep EmptyString) eqn:Hp;
      [| discriminate].
    injection H as <- <-. apply (prefix_drop sep EmptyString Hp).
  - cbn [split1] in H.
    destruct (String.prefix sep (String c s)) eqn:Hp.
    + injection H as <- <-. apply (prefix_drop sep (String c s) Hp).
    + destruct (split1 sep s) as [| h [| h' t]] eqn:Hs; try discriminate.
      destruct t; [| discriminate].
      injection H as <- <-. simpl. f_equal. apply IH. reflexivity.
Qed.

Lemma split1_leftmost (s a b : string) :
  split1 "> " s = [a; b] -> str_in "> " (a ++ ">") = false.
Proof.
  revert a. induction s as [| c s IH]; intros a H.
  - discriminate.
  - cbn [split1] in H.
    destruct (String.prefix "> " (String c s)) eqn:Hp.
    + injection H as <- <-. reflexivity.
    + destruct (split1 "> " s) as [| h [| h' t]] eqn:Hs; try discriminate.
      destruct t; [| discriminate].
      injection H as <- <-.
      change (String c h ++ ">") with (String c (h ++ ">")).
      cbn [str_in]. rewrite (IH h eq_refl). rewrite orb_false_r.
      pose proof (split1_two "> " s h h' Hs) as Heq. subst s.
      rewrite prefix_cons in *. apply andb_false_iff in Hp.
      apply andb_false_iff. destruct Hp as [Hc | Hrest]; [left; exact Hc |].
      right. destruct h as [| c' h]; [reflexivity |].
      change (String c' h ++ "> " ++ h')
        with (String c' (h ++ "> " ++ h')) in Hrest.
      change (String c' h ++ ">") with (String c' (h ++ ">")).
      rewrite prefix_cons in *. rewrite prefix_nil in *. exact Hrest.
Qed.

(** X10.  Stripping the mention never raises on a string and only ever
    removes one leading token: the result is either the text unchanged, or
    what follows a prefix of the form <@, an identifier, > and a space, in
    which no other > followed by a space starts earlier. *)
Theorem strip_mention_removes_one_token (t : string) :
  exists q,
    strip_mention (PStr t) = Ret (PStr q) /\
    (q = t \/
     exists id,
       t = "<@" ++ id ++ "> " ++ q /\
       str_in "> " ("<@" ++ id ++ ">") = false).
Proof.
  unfold strip_mention.
  destruct (startswith t "<@") eqn:Hs;
    [| exists t; split; [reflexivity | left; reflexivity]].
  destruct (str_in "> " t) eqn:Hin;
    [| exists t; split; [reflexivity | left; reflexivity]].
  destruct (split1_in "> " t Hin) as (a & b & Hsplit & Heq).
  exists b. rewrite Hsplit. split; [reflexivity |]. right.
  pose proof (split1_leftmost t a b Hsplit) as Hleft.
  unfold startswith in Hs. rewrite Heq in Hs.
  destruct a as [| x [| y id]].
  - simpl in Hs. discriminate.
  - change (String x EmptyString ++ "> " ++ b)
      with (String x (String ">" (String " " b))) in Hs.
    rewrite !prefix_cons in Hs.
    apply andb_prop in Hs. destruct Hs as [_ Hs].
    simpl in Hs. discriminate.
  - change (String x (String y id) ++ "> " ++ b)
      with (String x (String y (id ++ "> " ++ b))) in Hs.
    rewrite !prefix_cons in Hs.
    apply andb_prop in Hs. destruct Hs as [Hx Hs].
    apply andb_prop in Hs. destruct Hs as [Hy _].
    apply Ascii.eqb_eq in Hx. apply Ascii.eqb_eq in Hy. subst x y.
    exists id. split; [exact Heq | exact Hleft].
Qed.

Lemma dash_free_cut (c1 c2 t1 t2 : string) :
  dash_free c1 = true -> dash_free c2 = true ->
  c1 ++ "-" ++ t1 = c2 ++ "-" ++ t2 -> c1 = c2 /\ t1 = t2.
Proof.
  revert c2. induction c1 as [| a c1 IH]; intros c2 H1 H2 Heq.
  - destruct c2 as [| b c2].
    + simpl in Heq. injection Heq as ->. split; reflexivity.
    + simpl in Heq. injection Heq as <- _. simpl in H2. discriminate.
  - destruct c2 as [| b c2].
    + simpl in Heq. injection Heq as -> _. simpl in H1. discriminate.
    + simpl in Heq. injection Heq as -> Heq.
      simpl in H1, H2.
      apply andb_prop in H1. apply andb_prop in H2.
      destruct (IH c2 (proj2 H1) (proj2 H2) Heq) as [-> ->].
      split; reflexivity.
Qed.

(** X17.  Conversation identifiers keep threads apart: for channels whose
    identifier holds no dash, two identifiers built from string thread
    identities are equal only if the channels are equal and the thread
    identities are equal. *)
Theorem conversation_id_injective (c1 c2 t1 t2 : string) :
  dash_free c1 = true -> dash_free c2 = true ->
  conversation_id_of py_repr (PStr c1) (PStr t1) =
  conversation_id_of py_repr (PStr c2) (PStr t2) ->
  c1 = c2 /\ t1 = t2.
Proof.
  intros H1 H2 Heq. unfold conversation_id_of in Heq. cbn [py_format] in Heq.
  apply (dash_free_cut c1 c2 t1 t2 H1 H2).
  simpl in Heq. injection Heq as Heq. exact Heq.
Qed.

(** ** Wrong types, the retry gate and what is not handled *)

(** With a client, process-and-respond always starts with a call: it
    neither returns nor raises without having asked the platform or the
    backend. *)
Lemma process_starts_with_call
      (message channel thread_ts : pyval) (settings : pydict) :
  is_token (dict_get settings "bot_token" PNone) = true ->
  exists c k,
    _process_and_respond py_repr message channel thread_ts settings = Do c k.
Proof.
  unfold _process_and_respond.
  destruct (dict_get settings "bot_token" PNone); try discriminate; intros _.
  all: unfold WebClient; rewrite bind_Ret.
  all: destruct (truthy thread_ts); [do 2 eexists; reflexivity |].
  all: cbn [bind try_except py_getitem].
  all: destruct (lookup "app" settings) as [app |]; cbn [bind try_except];
         [| do 2 eexists; reflexivity].
  all: destruct app as [| b' | n' | s' | l' | d']; cbn [bind try_except py_getitem];
         try (do 2 eexists; reflexivity).
  all: destruct (lookup "app_id" d'); cbn [bind try_except];
         do 2 eexists; reflexivity.
Qed.

(** X11.  A mention whose text is present and not a string makes the
    handler raise AttributeError on [startswith] before any call.  With a
    string for a text, or none, the first step of the handler is a call
    when the bot token is None or a string; with any other bot token the
    handler raises the AttributeError of line 95 ([strip]) before any
    call. *)
Theorem mention_text_type (event settings : pydict) :
  let text := dict_get event "text" (PStr "") in
  let token := dict_get settings "bot_token" PNone in
  ((forall s, text <> PStr s) ->
   _handle_mention py_repr (PDict event) settings =
   Raise (no_attribute text "startswith")) /\
  ((exists s, text = PStr s) -> is_token token = true ->
   exists c k, _handle_mention py_repr (PDict event) settings = Do c k) /\
  ((exists s, text = PStr s) -> is_token token = false ->
   _handle_mention py_repr (PDict event) settings =
   Raise (no_attribute token "strip")).
Proof.
  intros text token. subst text token.
  assert (Hp : forall s,
             dict_get event "text" (PStr "") = PStr s ->
             exists q,
               _handle_mention py_repr (PDict event) settings =
               _process_and_respond py_repr (PStr q)
                 (dict_get event "channel" (PStr ""))
                 (dict_get event "thread_ts" (dict_get event "ts" PNone))
                 settings).
  { intros s Hs. unfold _handle_mention. cbn [py_get bind]. rewrite Hs.
    destruct (strip_mention_str s) as (q & -> & _). cbn [py_get bind].
    exists q. reflexivity. }
  split; [| split].
  - intro Hno. unfold _handle_mention. cbn [py_get bind].
    destruct (dict_get event "text" (PStr "")) as [| b | n | s | l | d];
      try reflexivity.
    exfalso. apply (Hno s). reflexivity.
  - intros [s Hs] Htoken. destruct (Hp s Hs) as [q ->].
    apply process_starts_with_call. exact Htoken.
  - intros [s Hs] Htoken. destruct (Hp s Hs) as [q ->].
    apply process_without_client. exact Htoken.
Qed.

(** X12.  The bot test of a message comes first: a message from a bot is
    answered ok without a call whatever its other fields are, even a
    channel that is not a string; for any other message, a channel that is
    present and not a string makes the handler raise AttributeError before
    any call. *)
Theorem message_checks_in_order (event settings : pydict) :
  let channel := dict_get event "channel" (PStr "") in
  (from_bot event = true ->
   _handle_message py_repr (PDict event) settings = Ret ok_response) /\
  (from_bot event = false -> (forall s, channel <> PStr s) ->
   _handle_message py_repr (PDict event) settings =
   Raise (no_attribute channel "startswith")).
Proof.
  intro channel. subst channel. rewrite handle_message_cases. cbv zeta.
  split.
  - intros ->. reflexivity.
  - intros -> Hno.
    destruct (dict_get event "channel" (PStr "")) as [| b | n | s | l | d];
      try reflexivity.
    exfalso. apply (Hno s). reflexivity.
Qed.

Lemma header_is_false (h : option string) (value : string) :
  h <> Some value -> header_is h value = false.
Proof.
  intro H. destruct h as [s |]; [| reflexivity]. simpl.
  destruct (String.eqb s value) eqn:E; [| reflexivity].
  apply String.eqb_eq in E. subst s. exfalso. apply H. reflexivity.
Qed.

Lemma invoke_when_not_ignored (r : Request) (settings : pydict) :
  retry_ignored py_repr r settings = Ret false ->
  _invoke py_repr r settings =
  _invoke py_repr (without_retry_headers r) settings.
Proof.
  intro H. unfold _invoke. rewrite H.
  unfold retry_ignored, without_retry_headers. cbn [X_Slack_Retry_Num
    X_Slack_Retry_Reason header_is get_json].
  destruct (negb (truthy (dict_get settings "allow_retry" PNone)));
    reflexivity.
Qed.

(** X13.  With allow_retry set to a truthy value the retry headers have no
    effect at all: the request is handled exactly as the same request
    without them, and a retry count that is not a number is never parsed. *)
Theorem allow_retry_disables_gate (r : Request) (settings : pydict) :
  truthy (dict_get settings "allow_retry" PNone) = true ->
  _invoke py_repr r settings =
  _invoke py_repr (without_retry_headers r) settings.
Proof.
  intro H. apply invoke_when_not_ignored.
  unfold retry_ignored. rewrite H. reflexivity.
Qed.

(** X14.  A retry count of zero or below does not mark a redelivery: when
    the retry reason is not http_timeout, a request whose count parses to
    such a number is handled exactly as the same request without retry
    headers. *)
Theorem nonpositive_retry_count_is_processed
        (r : Request) (settings : pydict) (s : string) (n : Z) :
  X_Slack_Retry_Reason r <> Some "http_timeout" ->
  X_Slack_Retry_Num r = Some s ->
  parse_int s = Parsed n ->
  n <= 0 ->
  _invoke py_repr r settings =
  _invoke py_repr (without_retry_headers r) settings.
Proof.
  intros Hreason Hnum Hparse Hn. apply invoke_when_not_ignored.
  unfold retry_ignored, py_int.
  rewrite (header_is_false _ _ Hreason), Hnum, Hparse. cbn [bind].
  assert (H0 : (0 <? n) = false) by (apply Z.ltb_ge; exact Hn).
  rewrite H0.
  destruct (negb (truthy (dict_get settings "allow_retry" PNone)));
    reflexivity.
Qed.

(** X15.  When allow_retry is false or absent and the retry reason is not
    http_timeout, a retry count that [int] refuses makes the endpoint raise
    ValueError, before the body of the request is read: the message names
    the invalid literal by the first 200 characters of its repr, or, for a
    count of more than 4300 digits, the number of its digits. *)
Theorem malformed_retry_count_raises
        (r : Request) (settings : pydict) (s : string) :
  truthy (dict_get settings "allow_retry" PNone) = false ->
  X_Slack_Retry_Reason r <> Some "http_timeout" ->
  X_Slack_Retry_Num r = Some s ->
  (parse_int s = InvalidLiteral ->
   _invoke py_repr r settings =
   Raise (mk_exn ValueError
            ("invalid literal for int() with base 10: "
             ++ substring 0 200 (py_repr (PStr s))))) /\
  (forall digits,
      parse_int s = TooManyDigits digits ->
      _invoke py_repr r settings =
      Raise (mk_exn ValueError
               ("Exceeds the limit (4300 digits) for integer string conversion: value has "
                ++ str_of_Z (Z.of_nat digits)
                ++ " digits; use sys.set_int_max_str_digits() to increase the limit"))).
Proof.
  intros Hallow Hreason Hnum. split; [intro Hparse | intros digits Hparse].
  all: unfold _invoke, retry_ignored, py_int.
  all: rewrite Hallow, (header_is_false _ _ Hreason), Hnum, Hparse.
  all: reflexivity.
Qed.

Lemma py_eq_str (v : pyval) (s : string) :
  py_eq v (PStr s) = true <-> v = PStr s.
Proof.
  split.
  - destruct v; simpl; try discriminate.
    intro H. apply String.eqb_eq in H. subst. reflexivity.
  - intros ->. simpl. apply String.eqb_refl.
Qed.

Lemma type_is_not (d : pydict) (s : string) :
  lookup "type" d <> Some (PStr s) ->
  py_eq (dict_get d "type" PNone) (PStr s) = false.
Proof.
  intro H. destruct (py_eq (dict_get d "type" PNone) (PStr s)) eqn:E;
    [| reflexivity].
  apply py_eq_str in E. unfold dict_get in E.
  destruct (lookup "type" d) as [v |]; [| discriminate].
  subst v. exfalso. apply H. reflexivity.
Qed.

(** X16.  What the endpoint does not handle it acknowledges and leaves
    alone.  For a request that retry suppression lets through, a payload
    object whose type is neither url_verification nor event_callback (or
    that has no type), and an event_callback whose event object has a type
    other than app_mention and message (or none), are answered with status
    200 and body ok, without any call. *)
Theorem unhandled_is_acknowledged
        (w : World) (r : Request) (settings data : pydict) :
  retry_ignored py_repr r settings = Ret false ->
  get_json r = Returned (PDict data) ->
  lookup "type" data <> Some (PStr "url_verification") ->
  (lookup "type" data <> Some (PStr "event_callback") \/
   exists event,
     lookup "event" data = Some (PDict event) /\
     lookup "type" event <> Some (PStr "app_mention") /\
     lookup "type" event <> Some (PStr "message")) ->
  run respond w (_invoke py_repr r settings) = (Returned ok_response, [], w).
Proof.
  intros Hretry Hjson Hurl Hcase.
  assert (H : _invoke py_repr r settings = Ret ok_response);
    [| rewrite H; reflexivity].
  unfold _invoke. rewrite Hretry, Hjson. cbn [bind of_result py_get].
  rewrite (type_is_not data _ Hurl).
  destruct Hcase as [Hevent | (event & Hev & Hm & Hmsg)].
  - rewrite (type_is_not data _ Hevent). reflexivity.
  - destruct (py_eq (dict_get data "type" PNone) (PStr "event_callback"));
      [| reflexivity].
    assert (Hev' : dict_get data "event" PNone = PDict event)
      by (unfold dict_get; rewrite Hev; reflexivity).
    rewrite Hev'. cbn [bind py_get].
    rewrite (type_is_not event _ Hm), (type_is_not event _ Hmsg).
    reflexivity.
Qed.

(** ** The endpoint as a whole *)

(** A handler is done without a call, or is process-and-respond. *)
Lemma handle_mention_shape (event : pyval) (settings : pydict) :
  (exists res, _handle_mention py_repr event settings = of_result res) \/
  (exists m c t,
      _handle_mention py_repr event settings =
      _process_and_respond py_repr m c t settings).
Proof.
  destruct event as [| b | n | s | l | ev];
    try (left; eexists (Raised _); reflexivity).
  destruct (handle_mention_cases ev settings)
    as [[e ->] | (t & q & _ & _ & ->)].
  - left. exists (Raised e). reflexivity.
  - right. do 3 eexists. reflexivity.
Qed.

Lemma handle_message_shape (event : pyval) (settings : pydict) :
  (exists res, _handle_message py_repr event settings = of_result res) \/
  (exists m c t,
      _handle_message py_repr event settings =
      _process_and_respond py_repr m c t settings).
Proof.
  destruct event as [| b | n | s | l | ev];
    try (left; eexists (Raised _); reflexivity).
  rewrite handle_message_cases. cbv zeta.
  destruct (from_bot ev); [left; exists (Returned ok_response); reflexivity |].
  destruct (dict_get ev "channel" (PStr ""));
    try (left; eexists (Raised _); reflexivity).
  destruct (negb (startswith s "D") &&
            negb (truthy (dict_get ev "thread_ts" PNone)));
    [left; exists (Returned ok_response); reflexivity |].
  right. do 3 eexists. reflexivity.
Qed.

Lemma invoke_shape (r : Request) (settings : pydict) :
  (exists res, _invoke py_repr r settings = of_result res) \/
  (exists m c t,
      _invoke py_repr r settings =
      _process_and_respond py_repr m c t settings).
Proof.
  unfold _invoke.
  destruct (retry_ignored_pure r settings) as [[[|] | e] ->];
    cbn [of_result bind];
    [left; exists (Returned ok_response); reflexivity
    | | left; exists (Raised e); reflexivity].
  destruct (get_json r) as [data | e]; cbn [of_result bind];
    [| left; exists (Raised e); reflexivity].
  destruct data as [| b | n | s | l | d];
    try (left; eexists (Raised _); reflexivity).
  cbn [py_get bind].
  destruct (py_eq (dict_get d "type" PNone) (PStr "url_verification"));
    [left; eexists (Returned _); reflexivity |].
  destruct (py_eq (dict_get d "type" PNone) (PStr "event_callback"));
    [| left; exists (Returned ok_response); reflexivity].
  destruct (dict_get d "event" PNone) as [| b | n | s | l | ev] eqn:Hev;
    try (left; eexists (Raised _); reflexivity).
  cbn [py_get bind].
  destruct (py_eq (dict_get ev "type" PNone) (PStr "app_mention")).
  - apply handle_mention_shape.
  - destruct (py_eq (dict_get ev "type" PNone) (PStr "message")).
    + apply handle_message_shape.
    + left. exists (Returned ok_response). reflexivity.
Qed.

(** X18.  The endpoint raises in two ways only.  Either it raises before
    any call has been made (the retry count, the body or a field of the
    payload is not what the code expects), or it has already called a
    collaborator, and then the exception is the one of the apology post,
    which is the last call and did not fail with a platform-API error. *)
Theorem invoke_raises_only
        (w : World) (r : Request) (settings : pydict) (e : exn) :
  let x := run respond w (_invoke py_repr r settings) in
  outcome_of x = Raised e ->
  trace_of x = [] \/
  (is_SlackApiError e = false /\
   exists before token channel thread_ts,
     trace_of x =
     (before ++
      [(chat_postMessage token channel (PStr apology) thread_ts,
        Raised e)])%list).
Proof.
  intros x Hout. subst x.
  destruct (invoke_shape r settings) as [[res H] | (m & c & t & H)];
    rewrite H in *.
  - left. rewrite run_of_result. reflexivity.
  - destruct (process_raise_shape w m c t settings e Hout)
      as [(_ & _ & Ht) | (_ & He & before & Ht)].
    + left. exact Ht.
    + right. split; [exact He |]. exists before. do 3 eexists. exact Ht.
Qed.

(** X19.  One request invokes the backend at most once. *)
Theorem backend_invoked_at_most_once
        (w : World) (r : Request) (settings : pydict) :
  (List.length
     (backend_calls (trace_of (run respond w (_invoke py_repr r settings))))
   <= 1)%nat.
Proof.
  destruct (invoke_shape r settings) as [[res H] | (m & c & t & H)];
    rewrite H.
  - rewrite run_of_result. simpl. lia.
  - pose proof (process_backend_calls w m c t settings) as Hc.
    cbv zeta in Hc. destruct Hc as [-> | (a & _ & ->)]; simpl; lia.
Qed.

End Properties.

(** * Closed instances

    The theorems above, applied to sample requests against the scripted
    platform, and the inputs on which a claim fails as it is worded. *)

(** C1, as worded, fails: with the retry reason timeout (and no retry
    count) a mention is not ignored, the thread is fetched, the backend is
    invoked and the answer is posted. *)
Lemma retry_reason_timeout_is_processed :
  let r := {| X_Slack_Retry_Num := None;
              X_Slack_Retry_Reason := Some "timeout";
              get_json := Returned (event_callback mention_event) |} in
  truthy (dict_get sample_settings "allow_retry" PNone) = false /\
  run scripted [thread_replies; chat_answer; posted]
      (_invoke sample_repr r sample_settings) =
  (Returned ok_response,
   [(conversations_replies (PStr "xoxb-1") (PStr "C42")
       (PStr "1700000000.000100"), thread_replies);
    (chat_invoke (PStr "app-1") (PStr "hello there") []
       "slack-C42-1700000000.000100" "blocking" "slack-user", chat_answer);
    (chat_postMessage (PStr "xoxb-1") (PStr "C42") (PStr "Hello!")
       (PStr "1700000000.000100"), posted)],
   []).
Proof. split; reflexivity. Qed.

Lemma retry_suppressed_witness :
  let by_reason := {| X_Slack_Retry_Num := None;
                      X_Slack_Retry_Reason := Some "http_timeout";
                      get_json := Returned (event_callback mention_event) |} in
  let by_count := {| X_Slack_Retry_Num := Some "2";
                     X_Slack_Retry_Reason := None;
                     get_json := Raised (mk_exn HTTPException
                                           "400 Bad Request") |} in
  (truthy (dict_get sample_settings "allow_retry" PNone) = false /\
   parse_int "2" = Parsed 2 /\ 0 < 2) /\
  run scripted [thread_replies; chat_answer; posted]
      (_invoke sample_repr by_reason sample_settings) =
  (Returned ok_response, [], [thread_replies; chat_answer; posted]) /\
  run scripted [thread_replies; chat_answer; posted]
      (_invoke sample_repr by_count sample_settings) =
  (Returned ok_response, [], [thread_replies; chat_answer; posted]).
Proof.
  split; [repeat split |]. split.
  - apply (retry_suppressed sample_repr (list (result pyval)) scripted).
    + reflexivity.
    + left. reflexivity.
  - apply (retry_suppressed sample_repr (list (result pyval)) scripted).
    + reflexivity.
    + right. exists "2", 2. repeat split.
Defined.

(** C4, as worded, fails: a url_verification payload redelivered with a
    retry count is answered ok like any other redelivery, and the
    challenge is not echoed. *)
Lemma url_verification_retry_is_ignored :
  let payload := [("type", PStr "url_verification");
                  ("challenge", PStr "3eZbrw1aB")] in
  let r := {| X_Slack_Retry_Num := Some "1";
              X_Slack_Retry_Reason := None;
              get_json := Returned (PDict payload) |} in
  lookup "type" payload = Some (PStr "url_verification") /\
  run scripted [] (_invoke sample_repr r []) =
  (Returned {| status := 200; response := text "ok"; content_type := None |},
   [], []) /\
  text "ok" <> json_dumps (PDict [("challenge", PStr "3eZbrw1aB")]).
Proof. repeat split. discriminate. Qed.

Lemma url_verification_echo_witness :
  let payload := [("type", PStr "url_verification");
                  ("challenge", PStr "3eZbrw1aB")] in
  let r := {| X_Slack_Retry_Num := None;
              X_Slack_Retry_Reason := None;
              get_json := Returned (PDict payload) |} in
  retry_ignored sample_repr r [] = Ret false /\
  run scripted [] (_invoke sample_repr r []) =
  (Returned {| status := 200;
               response :=
                 json_dumps (PDict [("challenge", PStr "3eZbrw1aB")]);
               content_type := Some "application/json" |},
   [], []).
Proof.
  split; [reflexivity |].
  apply (url_verification_echo sample_repr (list (result pyval)) scripted
           [] _ [] [("type", PStr "url_verification");
                    ("challenge", PStr "3eZbrw1aB")]);
    reflexivity.
Defined.

(** C2, as worded, fails: a direct message that no bot sent is eligible,
    yet the backend is not invoked when the thread fetch fails with an error
    that is not a platform-API error, or when the settings name no app; the
    handler then posts the apology and reports the error. *)
Lemma eligible_message_without_backend_call :
  let r := {| X_Slack_Retry_Num := None;
              X_Slack_Retry_Reason := None;
              get_json := Returned (event_callback dm_event) |} in
  let fetch := conversations_replies (PStr "xoxb-1") (PStr "D7")
                 (PStr "1700000000.000200") in
  let sorry := chat_postMessage (PStr "xoxb-1") (PStr "D7") (PStr apology)
                 (PStr "1700000000.000200") in
  let x := run scripted [Raised connection_reset; posted]
               (_invoke sample_repr r sample_settings) in
  let y := run scripted [thread_replies; posted]
               (_invoke sample_repr r settings_without_app) in
  (truthy (dict_get dm_event "bot_id" PNone) ||
   py_eq (dict_get dm_event "subtype" PNone) (PStr "bot_message") = false /\
   startswith "D7" "D" || truthy (dict_get dm_event "thread_ts" PNone) = true) /\
  (x = (Returned {| status := 200;
                    response :=
                      text "An error occurred: Connection reset by peer";
                    content_type := Some "text/plain" |},
        [(fetch, Raised connection_reset); (sorry, posted)], []) /\
   backend_calls (trace_of x) = []) /\
  (y = (Returned {| status := 200;
                    response := text "An error occurred: 'app'";
                    content_type := Some "text/plain" |},
        [(fetch, thread_replies); (sorry, posted)], []) /\
   backend_calls (trace_of y) = []).
Proof. repeat split. Qed.

Lemma message_gate_witness :
  let script := [thread_replies; chat_answer; posted] in
  let direct := run scripted script
                    (_handle_message sample_repr (PDict dm_event)
                                     sample_settings) in
  let chatter := run scripted script
                     (_handle_message sample_repr (PDict channel_chatter)
                                      sample_settings) in
  (dict_get dm_event "channel" (PStr "") = PStr "D7" /\
   dict_get channel_chatter "channel" (PStr "") = PStr "C42" /\
   is_token (dict_get sample_settings "bot_token" PNone) = true /\
   configured_app_id sample_settings = Some (PStr "app-1")) /\
  backend_calls (trace_of direct) =
  [chat_invoke (PStr "app-1") (PStr "hi") [] "slack-D7-1700000000.000200"
               "blocking" "slack-user"] /\
  outcome_of chatter = Returned ok_response /\
  trace_of chatter = [].
Proof.
  split; [repeat split |].
  pose proof (message_gate sample_repr (list (result pyval)) scripted
                [thread_replies; chat_answer; posted]
                dm_event sample_settings "D7" eq_refl) as Hdirect.
  pose proof (message_gate sample_repr (list (result pyval)) scripted
                [thread_replies; chat_answer; posted]
                channel_chatter sample_settings "C42" eq_refl) as Hchatter.
  cbv zeta in Hdirect, Hchatter.
  destruct Hdirect as (_ & Hinvoked & _).
  destruct Hchatter as (_ & _ & Hquiet).
  split.
  - exact (Hinvoked (PStr "app-1") eq_refl eq_refl eq_refl eq_refl
             (fun _ => eq_refl)).
  - apply Hquiet. intros [_ H]. discriminate H.
Defined.




Lemma get_thread_history_witness :
  let anchor := PStr "1700000000.000100" in
  let fetch := conversations_replies (PStr "xoxb-1") (PStr "C42") anchor in
  run scripted [thread_replies]
      (_get_thread_history (PStr "xoxb-1") (PStr "C42") anchor) =
  (Returned [PDict [("role", PStr "assistant"); ("content", PStr "Hello!")];
             PDict [("role", PStr "user"); ("content", PStr "thanks")]],
   [(fetch, thread_replies)], []) /\
  run scripted [ratelimited]
      (_get_thread_history (PStr "xoxb-1") (PStr "C42") anchor) =
  (Returned [], [(fetch, ratelimited)], []).
Proof.
  split.
  - apply (proj1 (get_thread_history_spec (list (result pyval)) scripted
                    [thread_replies] (PStr "xoxb-1") (PStr "C42")
                    (PStr "1700000000.000100"))
             [("ok", PBool true);
              ("messages", PList (map PDict thread_messages))]
             thread_messages);
      reflexivity.
  - apply (proj2 (get_thread_history_spec (list (result pyval)) scripted
                    [ratelimited] (PStr "xoxb-1") (PStr "C42")
                    (PStr "1700000000.000100"))
             (mk_exn SlackApiError "ratelimited"));
      reflexivity.
Defined.

Lemma backend_failure_is_reported_witness :
  let invoke := chat_invoke (PStr "app-1") (PStr "hi") []
                  "slack-D7-1700000000.000200" "blocking" "slack-user" in
  let x := run scripted [thread_replies; Raised backend_down; ratelimited]
               (_process_and_respond sample_repr (PStr "hi") (PStr "D7")
                  (PStr "1700000000.000200") sample_settings) in
  In (invoke, Raised backend_down) (trace_of x) /\
  exists before o,
    trace_of x =
    (before ++
     [(invoke, Raised backend_down);
      (chat_postMessage (PStr "xoxb-1") (PStr "D7") (PStr apology)
         (PStr "1700000000.000200"), o)])%list /\
    (post_conform o = true ->
     outcome_of x =
     Returned {| status := 200;
                 response := text "An error occurred: backend down";
                 content_type := Some "text/plain" |}).
Proof.
  assert (Hin : In (chat_invoke (PStr "app-1") (PStr "hi") []
                      "slack-D7-1700000000.000200" "blocking" "slack-user",
                    Raised backend_down)
                   (trace_of
                      (run scripted
                           [thread_replies; Raised backend_down; ratelimited]
                           (_process_and_respond sample_repr (PStr "hi")
                              (PStr "D7") (PStr "1700000000.000200")
                              sample_settings)))).
  { right. left. reflexivity. }
  split; [exact Hin |].
  exact (backend_failure_is_reported sample_repr (list (result pyval))
           scripted [thread_replies; Raised backend_down; ratelimited]
           (PStr "hi") (PStr "D7") (PStr "1700000000.000200")
           sample_settings
           (chat_invoke (PStr "app-1") (PStr "hi") []
              "slack-D7-1700000000.000200" "blocking" "slack-user")
           backend_down eq_refl Hin).
Defined.

Lemma backend_arguments_ignore_history_witness :
  let p := _process_and_respond sample_repr (PStr "hi") (PStr "D7")
             (PStr "1700000000.000200") sample_settings in
  let invoke := chat_invoke (PStr "app-1") (PStr "hi") []
                  "slack-D7-1700000000.000200" "blocking" "slack-user" in
  let t1 := trace_of (run scripted [thread_replies; chat_answer; posted] p) in
  let t2 := trace_of (run scripted [ratelimited; chat_answer; posted] p) in
  In invoke (backend_calls t1) /\ In invoke (backend_calls t2) /\
  backend_calls t1 = backend_calls t2.
Proof.
  split; [left; reflexivity |]. split; [left; reflexivity |].
  apply (proj2 (backend_arguments_ignore_history sample_repr
                  (list (result pyval)) scripted
                  [thread_replies; chat_answer; posted]
                  [ratelimited; chat_answer; posted]
                  (PStr "hi") (PStr "D7") (PStr "1700000000.000200")
                  sample_settings)); reflexivity.
Defined.

(** C10, as worded, fails: the mention carries neither thread_ts nor ts,
    yet the backend is not invoked when the settings name no app (the
    apology is posted and the KeyError reported), nor when the bot token is
    a number (the handler raises before any call). *)
Lemma bare_mention_without_backend_call :
  let x := run scripted [posted]
               (_handle_mention sample_repr (PDict bare_mention)
                                settings_without_app) in
  (lookup "thread_ts" bare_mention = None /\ lookup "ts" bare_mention = None) /\
  (x = (Returned {| status := 200;
                    response := text "An error occurred: 'app'";
                    content_type := Some "text/plain" |},
        [(chat_postMessage (PStr "xoxb-1") (PStr "C42") (PStr apology) PNone,
          posted)], []) /\
   backend_calls (trace_of x) = []) /\
  _handle_mention sample_repr (PDict bare_mention) settings_with_numeric_token =
  Raise (mk_exn AttributeError "'int' object has no attribute 'strip'").
Proof. repeat split. Qed.

Lemma mention_without_timestamps_witness :
  let x := run scripted [chat_answer; posted]
               (_handle_mention sample_repr (PDict bare_mention)
                                sample_settings) in
  let invoke := chat_invoke (PStr "app-1") (PStr "hello there") []
                  ("slack-" ++ "C42" ++ "-None") "blocking" "slack-user" in
  (lookup "thread_ts" bare_mention = None /\
   lookup "ts" bare_mention = None /\
   dict_get bare_mention "channel" (PStr "") = PStr "C42" /\
   In invoke (backend_calls (trace_of x))) /\
  existsb is_conversations_replies (map fst (trace_of x)) = false /\
  conversation_id_arg invoke = Some ("slack-" ++ "C42" ++ "-None") /\
  exists query o rest,
    trace_of x =
    (chat_invoke (PStr "app-1") query [] ("slack-" ++ "C42" ++ "-None")
                 "blocking" "slack-user", o) :: rest /\
    backend_calls (trace_of x) =
    [chat_invoke (PStr "app-1") query [] ("slack-" ++ "C42" ++ "-None")
                 "blocking" "slack-user"].
Proof.
  assert (Hin : In (chat_invoke (PStr "app-1") (PStr "hello there") []
                      ("slack-" ++ "C42" ++ "-None") "blocking" "slack-user")
                   (backend_calls
                      (trace_of
                         (run scripted [chat_answer; posted]
                              (_handle_mention sample_repr (PDict bare_mention)
                                               sample_settings))))).
  { left. reflexivity. }
  split; [repeat split; exact Hin |].
  pose proof (mention_without_timestamps sample_repr (list (result pyval))
                scripted [chat_answer; posted] bare_mention sample_settings
                "C42" eq_refl eq_refl eq_refl) as H.
  cbv zeta in H. destruct H as (Hskip & Hkey & Hinvoke).
  split; [exact Hskip |].
  split; [exact (Hkey _ Hin) |].
  exact (Hinvoke "<@U123> hello there" (PStr "app-1") eq_refl eq_refl eq_refl).
Defined.

(** * Closed instances of the further properties *)

Lemma invoke_responses_witness :
  let r := {| X_Slack_Retry_Num := None;
              X_Slack_Retry_Reason := None;
              get_json := Returned (event_callback dm_event) |} in
  let resp := {| status := 200;
                 response := text "Error sending message to Slack: ratelimited";
                 content_type := Some "text/plain" |} in
  outcome_of (run scripted [thread_replies; chat_answer; ratelimited]
                  (_invoke sample_repr r sample_settings)) = Returned resp /\
  status resp = 200 /\ endpoint_body (response resp).
Proof.
  split; [reflexivity |].
  apply (invoke_responses sample_repr (list (result pyval)) scripted
           [thread_replies; chat_answer; ratelimited]
           {| X_Slack_Retry_Num := None;
              X_Slack_Retry_Reason := None;
              get_json := Returned (event_callback dm_event) |}
           sample_settings).
  reflexivity.
Defined.

Lemma process_raises_only_from_apology_witness :
  let token := PStr "xoxb-1" in
  let x := run scripted [thread_replies; Raised backend_down;
                         Raised connection_reset]
               (_process_and_respond sample_repr (PStr "hi") (PStr "D7")
                  (PStr "1700000000.000200") sample_settings) in
  outcome_of x = Raised connection_reset /\
  ((is_token token = false /\
    connection_reset = no_attribute token "strip" /\ trace_of x = []) \/
   (is_token token = true /\
    is_SlackApiError connection_reset = false /\
    exists before,
      trace_of x =
      (before ++
       [(chat_postMessage token (PStr "D7") (PStr apology)
           (PStr "1700000000.000200"), Raised connection_reset)])%list)).
Proof.
  split; [reflexivity |].
  apply (process_raises_only_from_apology sample_repr (list (result pyval))
           scripted
           [thread_replies; Raised backend_down; Raised connection_reset]
           (PStr "hi") (PStr "D7") (PStr "1700000000.000200")
           sample_settings connection_reset).
  reflexivity.
Defined.

Lemma process_trace_shape_witness :
  let token := PStr "xoxb-1" in
  let channel := PStr "D7" in
  let thread_ts := PStr "1700000000.000200" in
  let x := run scripted [thread_replies; chat_answer; posted]
               (_process_and_respond sample_repr (PStr "hi") channel thread_ts
                  sample_settings) in
  is_token (dict_get sample_settings "bot_token" PNone) = true /\
  exists fetched invoked posts,
    trace_of x = (fetched ++ invoked ++ posts)%list /\
    (exists o, fetched = [(conversations_replies token channel thread_ts, o)]) /\
    (invoked = [] \/
     exists app_id o,
       configured_app_id sample_settings = Some app_id /\
       invoked = [(chat_invoke app_id (PStr "hi") []
                     (conversation_id_of sample_repr channel thread_ts)
                     "blocking" "slack-user", o)]) /\
    (1 <= List.length posts <= 2)%nat /\
    Forall (fun ev => posts_to token channel thread_ts (fst ev)) posts.
Proof.
  split; [reflexivity |].
  exact (process_trace_shape sample_repr (list (result pyval)) scripted
           [thread_replies; chat_answer; posted]
           (PStr "hi") (PStr "D7") (PStr "1700000000.000200")
           sample_settings eq_refl).
Defined.

Lemma answer_is_relayed_witness :
  let invoke := chat_invoke (PStr "app-1") (PStr "hi") []
                  "slack-D7-1700000000.000200" "blocking" "slack-user" in
  let answer := [("answer", PStr "Hello!")] in
  let x := run scripted [thread_replies; chat_answer; ratelimited]
               (_process_and_respond sample_repr (PStr "hi") (PStr "D7")
                  (PStr "1700000000.000200") sample_settings) in
  In (invoke, Returned (PDict answer)) (trace_of x) /\
  exists before o rest,
    trace_of x =
    (before ++
     (invoke, Returned (PDict answer))
     :: (chat_postMessage (PStr "xoxb-1") (PStr "D7") (PStr "Hello!")
           (PStr "1700000000.000200"), o)
     :: rest)%list /\
    ((exists v, o = Returned v) ->
     rest = [] /\ outcome_of x = Returned ok_response) /\
    (forall e,
        o = Raised e -> is_SlackApiError e = true ->
        rest = [] /\
        outcome_of x =
        Returned {| status := 200;
                    response := text ("Error sending message to Slack: "
                                      ++ exn_str e);
                    content_type := Some "text/plain" |}).
Proof.
  assert (Hin : In (chat_invoke (PStr "app-1") (PStr "hi") []
                      "slack-D7-1700000000.000200" "blocking" "slack-user",
                    Returned (PDict [("answer", PStr "Hello!")]))
                   (trace_of
                      (run scripted [thread_replies; chat_answer; ratelimited]
                           (_process_and_respond sample_repr (PStr "hi")
                              (PStr "D7") (PStr "1700000000.000200")
                              sample_settings)))).
  { right. left. reflexivity. }
  split; [exact Hin |].
  exact (answer_is_relayed sample_repr (list (result pyval)) scripted
           [thread_replies; chat_answer; ratelimited]
           (PStr "hi") (PStr "D7") (PStr "1700000000.000200") sample_settings
           (chat_invoke (PStr "app-1") (PStr "hi") []
              "slack-D7-1700000000.000200" "blocking" "slack-user")
           [("answer", PStr "Hello!")] eq_refl Hin).
Defined.

Lemma answer_post_failure_is_reported_witness :
  let invoke := chat_invoke (PStr "app-1") (PStr "hi") []
                  "slack-D7-1700000000.000200" "blocking" "slack-user" in
  let answer := [("answer", PStr "Hello!")] in
  let x := run scripted [thread_replies; chat_answer;
                         Raised connection_reset; posted]
               (_process_and_respond sample_repr (PStr "hi") (PStr "D7")
                  (PStr "1700000000.000200") sample_settings) in
  In (invoke, Returned (PDict answer)) (trace_of x) /\
  exists before o rest,
    trace_of x =
    (before ++
     (invoke, Returned (PDict answer))
     :: (chat_postMessage (PStr "xoxb-1") (PStr "D7") (PStr "Hello!")
           (PStr "1700000000.000200"), o)
     :: rest)%list /\
    (forall e,
        o = Raised e -> is_SlackApiError e = false ->
        exists o2,
          rest = [(chat_postMessage (PStr "xoxb-1") (PStr "D7") (PStr apology)
                     (PStr "1700000000.000200"), o2)] /\
          (post_conform o2 = true ->
           outcome_of x =
           Returned {| status := 200;
                       response := text ("An error occurred: " ++ exn_str e);
                       content_type := Some "text/plain" |})).
Proof.
  assert (Hin : In (chat_invoke (PStr "app-1") (PStr "hi") []
                      "slack-D7-1700000000.000200" "blocking" "slack-user",
                    Returned (PDict [("answer", PStr "Hello!")]))
                   (trace_of
                      (run scripted [thread_replies; chat_answer;
                                     Raised connection_reset; posted]
                           (_process_and_respond sample_repr (PStr "hi")
                              (PStr "D7") (PStr "1700000000.000200")
                              sample_settings)))).
  { right. left. reflexivity. }
  split; [exact Hin |].
  exact (answer_post_failure_is_reported sample_repr (list (result pyval))
           scripted
           [thread_replies; chat_answer; Raised connection_reset; posted]
           (PStr "hi") (PStr "D7") (PStr "1700000000.000200") sample_settings
           (chat_invoke (PStr "app-1") (PStr "hi") []
              "slack-D7-1700000000.000200" "blocking" "slack-user")
           [("answer", PStr "Hello!")] eq_refl Hin).
Defined.

Lemma backend_answer_not_an_object_witness :
  let invoke := chat_invoke (PStr "app-1") (PStr "hi") []
                  "slack-D7-1700000000.000200" "blocking" "slack-user" in
  let x := run scripted [thread_replies; Returned PNone; posted]
               (_process_and_respond sample_repr (PStr "hi") (PStr "D7")
                  (PStr "1700000000.000200") sample_settings) in
  In (invoke, Returned PNone) (trace_of x) /\
  exists before o,
    trace_of x =
    (before ++
     [(invoke, Returned PNone);
      (chat_postMessage (PStr "xoxb-1") (PStr "D7") (PStr apology)
         (PStr "1700000000.000200"), o)])%list /\
    (post_conform o = true ->
     outcome_of x =
     Returned {| status := 200;
                 response :=
                   text "An error occurred: 'NoneType' object has no attribute 'get'";
                 content_type := Some "text/plain" |}).
Proof.
  assert (Hin : In (chat_invoke (PStr "app-1") (PStr "hi") []
                      "slack-D7-1700000000.000200" "blocking" "slack-user",
                    Returned PNone)
                   (trace_of
                      (run scripted [thread_replies; Returned PNone; posted]
                           (_process_and_respond sample_repr (PStr "hi")
                              (PStr "D7") (PStr "1700000000.000200")
                              sample_settings)))).
  { right. left. reflexivity. }
  split; [exact Hin |].
  exact (backend_answer_not_an_object sample_repr (list (result pyval))
           scripted [thread_replies; Returned PNone; posted]
           (PStr "hi") (PStr "D7") (PStr "1700000000.000200") sample_settings
           (chat_invoke (PStr "app-1") (PStr "hi") []
              "slack-D7-1700000000.000200" "blocking" "slack-user")
           PNone eq_refl eq_refl Hin).
Defined.

Lemma missing_app_is_reported_witness :
  let settings := [("bot_token", PStr "xoxb-1")] in
  let fetch := conversations_replies (PStr "xoxb-1") (PStr "D7")
                 (PStr "1700000000.000200") in
  let x := run scripted [thread_replies; posted]
               (_process_and_respond sample_repr (PStr "hi") (PStr "D7")
                  (PStr "1700000000.000200") settings) in
  (is_token (dict_get settings "bot_token" PNone) = true /\
   lookup "app" settings = None) /\
  exists o,
    trace_of x =
    [(fetch, thread_replies);
     (chat_postMessage (PStr "xoxb-1") (PStr "D7") (PStr apology)
        (PStr "1700000000.000200"), o)] /\
    (post_conform o = true ->
     outcome_of x =
     Returned {| status := 200;
                 response := text "An error occurred: 'app'";
                 content_type := Some "text/plain" |}).
Proof.
  split; [split; reflexivity |].
  exact (missing_app_is_reported sample_repr (list (result pyval)) scripted
           [thread_replies; posted]
           (PStr "hi") (PStr "D7") (PStr "1700000000.000200")
           [("bot_token", PStr "xoxb-1")] eq_refl eq_refl (fun _ => eq_refl)).
Defined.

Lemma fetch_failure_skips_backend_witness :
  let fetch := conversations_replies (PStr "xoxb-1") (PStr "D7")
                 (PStr "1700000000.000200") in
  let x := run scripted [Raised connection_reset; posted]
               (_process_and_respond sample_repr (PStr "hi") (PStr "D7")
                  (PStr "1700000000.000200") sample_settings) in
  (is_token (dict_get sample_settings "bot_token" PNone) = true /\
   is_SlackApiError connection_reset = false) /\
  exists o,
    trace_of x =
    [(fetch, Raised connection_reset);
     (chat_postMessage (PStr "xoxb-1") (PStr "D7") (PStr apology)
        (PStr "1700000000.000200"), o)] /\
    (post_conform o = true ->
     outcome_of x =
     Returned {| status := 200;
                 response := text "An error occurred: Connection reset by peer";
                 content_type := Some "text/plain" |}).
Proof.
  split; [split; reflexivity |].
  exact (fetch_failure_skips_backend sample_repr (list (result pyval)) scripted
           [Raised connection_reset; posted]
           (PStr "hi") (PStr "D7") (PStr "1700000000.000200")
           sample_settings connection_reset eq_refl eq_refl eq_refl eq_refl).
Defined.

Lemma get_thread_history_propagates_witness :
  let anchor := PStr "1700000000.000100" in
  let fetch := conversations_replies (PStr "xoxb-1") (PStr "C42") anchor in
  let reply := [("ts", PStr "1700000000.000300"); ("text", PStr "Hello!")] in
  let broken :=
    Returned (PDict [("messages",
                      PList [PDict reply; PStr "oops"; PDict reply])]) in
  run scripted [Raised connection_reset]
      (_get_thread_history (PStr "xoxb-1") (PStr "C42") anchor) =
  (Raised connection_reset, [(fetch, Raised connection_reset)], []) /\
  run scripted [broken]
      (_get_thread_history (PStr "xoxb-1") (PStr "C42") anchor) =
  (Raised (mk_exn AttributeError "'str' object has no attribute 'get'"),
   [(fetch, broken)], []).
Proof.
  split.
  - apply (proj1 (get_thread_history_propagates (list (result pyval)) scripted
                    [Raised connection_reset] (PStr "xoxb-1") (PStr "C42")
                    (PStr "1700000000.000100")) connection_reset);
      reflexivity.
  - apply (proj2 (get_thread_history_propagates (list (result pyval)) scripted
                    [Returned
                       (PDict [("messages",
                                PList [PDict [("ts", PStr "1700000000.000300");
                                              ("text", PStr "Hello!")];
                                       PStr "oops";
                                       PDict [("ts", PStr "1700000000.000300");
                                              ("text", PStr "Hello!")]])])]
                    (PStr "xoxb-1") (PStr "C42") (PStr "1700000000.000100"))
             [("messages",
               PList [PDict [("ts", PStr "1700000000.000300");
                             ("text", PStr "Hello!")];
                      PStr "oops";
                      PDict [("ts", PStr "1700000000.000300");
                             ("text", PStr "Hello!")]])]
             [[("ts", PStr "1700000000.000300"); ("text", PStr "Hello!")]]
             (PStr "oops")
             [PDict [("ts", PStr "1700000000.000300");
                     ("text", PStr "Hello!")]]);
      reflexivity.
Defined.

Lemma mention_text_type_witness :
  _handle_mention sample_repr (PDict [("text", PInt 5)]) sample_settings =
  Raise (mk_exn AttributeError "'int' object has no attribute 'startswith'") /\
  (exists c k,
      _handle_mention sample_repr (PDict mention_event) sample_settings =
      Do c k) /\
  _handle_mention sample_repr (PDict mention_event)
    settings_with_numeric_token =
  Raise (mk_exn AttributeError "'int' object has no attribute 'strip'").
Proof.
  split; [| split].
  - apply (proj1 (mention_text_type sample_repr [("text", PInt 5)]
                    sample_settings)).
    intros s H. discriminate H.
  - apply (proj1 (proj2 (mention_text_type sample_repr mention_event
                           sample_settings))).
    + exists "<@U123> hello there". reflexivity.
    + reflexivity.
  - apply (proj2 (proj2 (mention_text_type sample_repr mention_event
                           settings_with_numeric_token))).
    + exists "<@U123> hello there". reflexivity.
    + reflexivity.
Defined.

Lemma message_checks_in_order_witness :
  let bot := [("bot_id", PStr "B1"); ("channel", PInt 7)] in
  let odd := [("channel", PInt 7)] in
  (from_bot bot = true /\ from_bot odd = false) /\
  _handle_message sample_repr (PDict bot) sample_settings = Ret ok_response /\
  _handle_message sample_repr (PDict odd) sample_settings =
  Raise (mk_exn AttributeError "'int' object has no attribute 'startswith'").
Proof.
  split; [split; reflexivity |]. split.
  - apply (proj1 (message_checks_in_order sample_repr
                    [("bot_id", PStr "B1"); ("channel", PInt 7)]
                    sample_settings)).
    reflexivity.
  - apply (proj2 (message_checks_in_order sample_repr [("channel", PInt 7)]
                    sample_settings)).
    + reflexivity.
    + intros s H. discriminate H.
Defined.

Lemma allow_retry_disables_gate_witness :
  let settings := ("allow_retry", PBool true) :: sample_settings in
  let r := {| X_Slack_Retry_Num := Some "abc";
              X_Slack_Retry_Reason := Some "http_timeout";
              get_json := Returned (event_callback dm_event) |} in
  truthy (dict_get settings "allow_retry" PNone) = true /\
  _invoke sample_repr r settings =
  _invoke sample_repr (without_retry_headers r) settings.
Proof.
  split; [reflexivity |].
  apply (allow_retry_disables_gate sample_repr). reflexivity.
Defined.

Lemma nonpositive_retry_count_is_processed_witness :
  let r := {| X_Slack_Retry_Num := Some "0";
              X_Slack_Retry_Reason := None;
              get_json := Returned (event_callback dm_event) |} in
  parse_int "0" = Parsed 0 /\
  _invoke sample_repr r sample_settings =
  _invoke sample_repr (without_retry_headers r) sample_settings.
Proof.
  split; [reflexivity |].
  apply (nonpositive_retry_count_is_processed sample_repr
           {| X_Slack_Retry_Num := Some "0";
              X_Slack_Retry_Reason := None;
              get_json := Returned (event_callback dm_event) |}
           sample_settings "0" 0).
  - intro H. discriminate H.
  - reflexivity.
  - reflexivity.
  - apply Z.le_refl.
Defined.

Lemma malformed_retry_count_raises_witness :
  let r := {| X_Slack_Retry_Num := Some "1.5";
              X_Slack_Retry_Reason := None;
              get_json := Returned (event_callback dm_event) |} in
  parse_int "1.5" = InvalidLiteral /\
  _invoke sample_repr r sample_settings =
  Raise (mk_exn ValueError "invalid literal for int() with base 10: '1.5'").
Proof.
  split; [reflexivity |].
  assert (Hreason : @None string <> Some "http_timeout")
    by (intro H; discriminate H).
  apply (proj1 (malformed_retry_count_raises sample_repr
                  {| X_Slack_Retry_Num := Some "1.5";
                     X_Slack_Retry_Reason := None;
                     get_json := Returned (event_callback dm_event) |}
                  sample_settings "1.5" eq_refl Hreason eq_refl)).
  reflexivity.
Defined.

Lemma unhandled_is_acknowledged_witness :
  let other := {| X_Slack_Retry_Num := None;
                  X_Slack_Retry_Reason := None;
                  get_json := Returned (PDict [("type", PStr "app_rate_limited")]) |} in
  let reaction := {| X_Slack_Retry_Num := None;
                     X_Slack_Retry_Reason := None;
                     get_json :=
                       Returned (event_callback
                                   [("type", PStr "reaction_added")]) |} in
  run scripted [chat_answer] (_invoke sample_repr other sample_settings) =
  (Returned ok_response, [], [chat_answer]) /\
  run scripted [chat_answer] (_invoke sample_repr reaction sample_settings) =
  (Returned ok_response, [], [chat_answer]).
Proof.
  split.
  - apply (unhandled_is_acknowledged sample_repr (list (result pyval)) scripted
             [chat_answer] _ sample_settings
             [("type", PStr "app_rate_limited")]).
    + reflexivity.
    + reflexivity.
    + intro H. discriminate H.
    + left. intro H. discriminate H.
  - apply (unhandled_is_acknowledged sample_repr (list (result pyval)) scripted
             [chat_answer] _ sample_settings
             [("type", PStr "event_callback");
              ("event", PDict [("type", PStr "reaction_added")])]).
    + reflexivity.
    + reflexivity.
    + intro H. discriminate H.
    + right. exists [("type", PStr "reaction_added")].
      split; [reflexivity |].
      split; intro H; discriminate H.
Defined.

Lemma conversation_id_injective_witness :
  (dash_free "C42" = true /\
   conversation_id_of sample_repr (PStr "C42") (PStr "1700000000.000100") =
   "slack-C42-1700000000.000100") /\
  "C42" = "C42" /\ "1700000000.000100" = "1700000000.000100".
Proof.
  split; [split; reflexivity |].
  apply (conversation_id_injective sample_repr
           "C42" "C42" "1700000000.000100" "1700000000.000100");
    reflexivity.
Defined.

Lemma invoke_raises_only_witness :
  let r := {| X_Slack_Retry_Num := None;
              X_Slack_Retry_Reason := None;
              get_json := Returned (event_callback bare_mention) |} in
  let x := run scripted [Raised backend_down; Raised connection_reset]
               (_invoke sample_repr r sample_settings) in
  outcome_of x = Raised connection_reset /\
  (trace_of x = [] \/
   (is_SlackApiError connection_reset = false /\
    exists before token channel thread_ts,
      trace_of x =
      (before ++
       [(chat_postMessage token channel (PStr apology) thread_ts,
         Raised connection_reset)])%list)).
Proof.
  split; [reflexivity |].
  apply (invoke_raises_only sample_repr (list (result pyval)) scripted
           [Raised backend_down; Raised connection_reset]
           {| X_Slack_Retry_Num := None;
              X_Slack_Retry_Reason := None;
              get_json := Returned (event_callback bare_mention) |}
           sample_settings connection_reset).
  reflexivity.
Defined.

Lemma get_thread_history_without_messages_witness :
  let anchor := PStr "1700000000.000100" in
  let fetch := conversations_replies (PStr "xoxb-1") (PStr "C42") anchor in
  let not_iterable := mk_exn TypeError "'NoneType' object is not iterable" in
  let empty := Returned (PDict [("ok", PBool true); ("messages", PNone)]) in
  run scripted [Returned PNone]
      (_get_thread_history (PStr "xoxb-1") (PStr "C42") anchor) =
  (Raised not_iterable, [(fetch, Returned PNone)], []) /\
  run scripted [empty]
      (_get_thread_history (PStr "xoxb-1") (PStr "C42") anchor) =
  (Raised not_iterable, [(fetch, empty)], []).
Proof.
  split.
  - apply (proj1 (get_thread_history_without_messages (list (result pyval))
                    scripted [Returned PNone] (PStr "xoxb-1") (PStr "C42")
                    (PStr "1700000000.000100")));
      reflexivity.
  - apply (proj2 (get_thread_history_without_messages (list (result pyval))
                    scripted
                    [Returned (PDict [("ok", PBool true); ("messages", PNone)])]
                    (PStr "xoxb-1") (PStr "C42") (PStr "1700000000.000100"))
             [("ok", PBool true); ("messages", PNone)]);
      reflexivity.
Defined.
